(** * bpt.py: loading Medicare Advantage Bid Pricing Tool data

    A shallow embedding of [bpt.py] and the properties of its loaders.

    - Python [str] is [string]; [in], [endswith], [split] and
      [os.path.join] are written out below.
    - A raised exception is the [Err] branch of [result]; the exception is
      identified by its Python class.
    - The file system is a tree of directories and files; a file is a zip
      archive (its members in [namelist()] order) or something else.
    - A pandas [DataFrame] is a list of column labels and a list of rows.
      [pd.read_csv] itself is outside the repository: it is a variable of
      the sections below.
    - The [print] calls of [BPT.__init__] write progress to stdout and are
      left out. *)

From Stdlib Require Import String Ascii List Bool Arith Lia.
Set Warnings "-register-all".
Import ListNotations.
Open Scope string_scope.
Open Scope list_scope.

(** ** Python strings *)

Module PyStr.

(** [s.startswith(p)] *)
Fixpoint startswith (p s : string) : bool :=
  match p with
  | EmptyString => true
  | String a p' =>
      match s with
      | EmptyString => false
      | String b s' => if Ascii.eqb a b then startswith p' s' else false
      end
  end.

(** [p in s] for strings: [p] occurs in [s] as a contiguous substring. *)
Fixpoint contains (p s : string) : bool :=
  startswith p s ||
  match s with
  | EmptyString => false
  | String _ s' => contains p s'
  end.

(** [s.endswith(p)] *)
Fixpoint endswith (p s : string) : bool :=
  String.eqb p s ||
  match s with
  | EmptyString => false
  | String _ s' => endswith p s'
  end.

(** [s.split(sep)] for a one-character separator: a string with [n]
    separators has [n + 1] segments, empty ones included. *)
Fixpoint split (sep : ascii) (s : string) : list string :=
  match s with
  | EmptyString => [EmptyString]
  | String c s' =>
      if Ascii.eqb c sep then EmptyString :: split sep s'
      else match split sep s' with
           | [] => [String c EmptyString]
           | seg :: segs => String c seg :: segs
           end
  end.

(** [list(s)]: iterating a string yields its characters as strings. *)
Fixpoint chars (s : string) : list string :=
  match s with
  | EmptyString => []
  | String c s' => String c EmptyString :: chars s'
  end.

(** [c] does not occur in [s]. *)
Fixpoint lacks (c : ascii) (s : string) : bool :=
  match s with
  | EmptyString => true
  | String a s' => negb (Ascii.eqb a c) && lacks c s'
  end.

End PyStr.

(** ** Exceptions and the error monad *)

Inductive PyError : Type :=
| AssertionError
| UnboundLocalError
| IndexError
| KeyError
| TypeError
| ValueError
| FileNotFoundError
| IsADirectoryError
| BadZipFile
| EmptyDataError
| ParserError
| UnicodeDecodeError.

(** The name of the exception class. *)
Definition exn_name (e : PyError) : string :=
  match e with
  | AssertionError => "AssertionError"
  | UnboundLocalError => "UnboundLocalError"
  | IndexError => "IndexError"
  | KeyError => "KeyError"
  | TypeError => "TypeError"
  | ValueError => "ValueError"
  | FileNotFoundError => "FileNotFoundError"
  | IsADirectoryError => "IsADirectoryError"
  | BadZipFile => "BadZipFile"
  | EmptyDataError => "EmptyDataError"
  | ParserError => "ParserError"
  | UnicodeDecodeError => "UnicodeDecodeError"
  end.

Inductive result (A : Type) : Type :=
| Ok (a : A)
| Err (e : PyError).
Arguments Ok {A} a.
Arguments Err {A} e.

Definition bind {A B : Type} (m : result A) (k : A -> result B) : result B :=
  match m with
  | Ok a => k a
  | Err e => Err e
  end.

Notation "x <- m ;; k" := (bind m (fun x => k))
  (at level 61, m at next level, right associativity).

(** A [for] loop whose body may raise: the loop state is threaded through
    the iterations and the first exception leaves the loop. *)
Fixpoint for_each {S A : Type} (body : S -> A -> result S) (xs : list A) (s : S)
  : result S :=
  match xs with
  | [] => Ok s
  | x :: xs' => s' <- body s x ;; for_each body xs' s'
  end.

(** Reading a local variable that no iteration has bound. *)
Definition read_local {A : Type} (v : option A) : result A :=
  match v with
  | Some a => Ok a
  | None => Err UnboundLocalError
  end.

(** ** The file system *)

(** The bytes of a file: a zip archive with its members in [namelist()]
    order, or anything else. *)
Inductive FileData : Type :=
| ZipData (members : list (string * string))
| OtherData (bytes : string).

Inductive Node : Type :=
| File (name : string) (data : FileData)
| Dir (name : string) (entries : list Node).

Definition node_name (n : Node) : string :=
  match n with
  | File name _ => name
  | Dir name _ => name
  end.

Definition is_dir (n : Node) : bool :=
  match n with
  | File _ _ => false
  | Dir _ _ => true
  end.

(** The root directory, which is also the working directory: a relative
    path and the same path with a leading slash name the same node. *)
Definition FileSystem : Type := list Node.

Module OS.

Fixpoint find_entry (name : string) (entries : list Node) : option Node :=
  match entries with
  | [] => None
  | n :: rest => if String.eqb (node_name n) name then Some n else find_entry name rest
  end.

(** Follow the segments of a path from a node. An empty segment (a doubled
    or trailing slash) and ["."] stay in place and need a directory; [".."]
    and symbolic links are not modelled. *)
Fixpoint descend (segs : list string) (n : Node) : option Node :=
  match segs with
  | [] => Some n
  | seg :: segs' =>
      match n with
      | File _ _ => None
      | Dir _ entries =>
          if String.eqb seg "" || String.eqb seg "." then descend segs' n
          else match find_entry seg entries with
               | Some n' => descend segs' n'
               | None => None
               end
      end
  end.

Definition resolve (fs : FileSystem) (path : string) : option Node :=
  if String.eqb path "" then None
  else descend (PyStr.split "/" path) (Dir "" fs).

(** [os.path.exists(path)] *)
Definition path_exists (fs : FileSystem) (path : string) : bool :=
  match resolve fs path with
  | Some _ => true
  | None => false
  end.

(** [os.path.join(a, b)] of [posixpath]. *)
Definition path_join (a b : string) : string :=
  if PyStr.startswith "/" b then b
  else if String.eqb a "" || PyStr.endswith "/" a then a ++ b
  else a ++ "/" ++ b.

(** The names of the entries of a directory that are not directories. *)
Definition file_names (entries : list Node) : list string :=
  map node_name (filter (fun n => negb (is_dir n)) entries).

(** The third components of the triples [os.walk] yields below a node, top
    down: the files of the directory first, then each subdirectory's walk
    in listing order. *)
Fixpoint walk_node (n : Node) : list (list string) :=
  match n with
  | File _ _ => []
  | Dir _ entries =>
      file_names entries ::
      (fix walk_entries (l : list Node) : list (list string) :=
         match l with
         | [] => []
         | c :: l' => walk_node c ++ walk_entries l'
         end) entries
  end.

(** [[files for _, _, files in os.walk(top)]]; a [top] that is missing or
    not a directory yields nothing. *)
Definition walk (fs : FileSystem) (top : string) : list (list string) :=
  match resolve fs top with
  | Some n => walk_node n
  | None => []
  end.

End OS.

(** ** Zip archives *)

Definition ZipFile : Type := list (string * string).

Module Zip.

(** [zipfile.ZipFile(path, "r")] *)
Definition open_archive (fs : FileSystem) (path : string) : result ZipFile :=
  match OS.resolve fs path with
  | None => Err FileNotFoundError
  | Some (Dir _ _) => Err IsADirectoryError
  | Some (File _ (OtherData _)) => Err BadZipFile
  | Some (File _ (ZipData members)) => Ok members
  end.

(** [zf.namelist()] *)
Definition namelist (zf : ZipFile) : list string := map fst zf.

(** [zf.open(name)]: of several members with one name the last added is
    the one the archive's name table keeps. *)
Fixpoint open_member (zf : ZipFile) (name : string) : result string :=
  match zf with
  | [] => Err KeyError
  | (n, bytes) :: rest =>
      match open_member rest name with
      | Ok b => Ok b
      | Err e => if String.eqb n name then Ok bytes else Err e
      end
  end.

End Zip.

(** ** pandas tables *)

(** A cell: a missing value ([NaN]), a string, or a number. Of a number
    only its being one matters to the code. *)
Inductive Scalar : Type :=
| NA
| Str (s : string)
| Num (n : nat).

Definition notna (v : Scalar) : bool :=
  match v with
  | NA => false
  | _ => true
  end.

(** A [DataFrame] with labels of type [L] and the default [RangeIndex]:
    every row has one cell per column. [pd.read_csv] takes its labels from
    the header line, so they are strings; [rename] can put any cell of the
    data dictionary in their place. *)
Record Frame (L : Type) : Type := mkFrame {
  columns : list L;
  rows : list (list Scalar)
}.
Arguments mkFrame {L} columns rows.
Arguments columns {L} f.
Arguments rows {L} f.

Definition nrows {L : Type} (f : Frame L) : nat := length (rows f).
Definition ncols {L : Type} (f : Frame L) : nat := length (columns f).

(** What an expression on a table evaluates to. *)
Inductive PdObject : Type :=
| PdScalar (v : Scalar)
| PdSeries (values : list Scalar)
| PdFrame (f : Frame string).

Module Pd.

(** The positions of the columns labelled [key]. *)
Fixpoint positions (key : string) (labels : list string) (i : nat) : list nat :=
  match labels with
  | [] => []
  | l :: ls =>
      if String.eqb l key then i :: positions key ls (S i) else positions key ls (S i)
  end.

Definition cell (i : nat) (row : list Scalar) : Scalar := nth i row NA.

(** [df.iloc[:, mask]] for a boolean mask: the columns at the [true]
    places. *)
Fixpoint select {A : Type} (mask : list bool) (xs : list A) : list A :=
  match mask, xs with
  | b :: mask', x :: xs' => if b then x :: select mask' xs' else select mask' xs'
  | _, _ => []
  end.

Definition iloc_columns (f : Frame string) (mask : list bool) : Frame string :=
  mkFrame (select mask (columns f)) (map (select mask) (rows f)).

(** [df[key]]: a missing label raises, one column is a [Series], several
    columns of that label are a [DataFrame]. *)
Definition getitem (f : Frame string) (key : string) : result PdObject :=
  match positions key (columns f) 0 with
  | [] => Err KeyError
  | [i] => Ok (PdSeries (map (cell i) (rows f)))
  | _ => Ok (PdFrame (iloc_columns f (map (String.eqb key) (columns f))))
  end.

(** [df.columns.str.contains(pat=p)] for a pattern without regular
    expression metacharacters. *)
Definition str_contains (p : string) (labels : list string) : list bool :=
  map (PyStr.contains p) labels.

(** [df.squeeze()]: every axis of length one is dropped. *)
Definition squeeze (f : Frame string) : PdObject :=
  match rows f, columns f with
  | [r], [_] => PdScalar (cell 0 r)
  | _, [_] => PdSeries (map (cell 0) (rows f))
  | [r], _ => PdSeries r
  | _, _ => PdFrame f
  end.

(** [iter(o)]: a [Series] yields its values, a [DataFrame] its column
    labels, a string its characters; a number and [NaN] are not iterable. *)
Definition iter (o : PdObject) : result (list Scalar) :=
  match o with
  | PdScalar (Str s) => Ok (map Str (PyStr.chars s))
  | PdScalar _ => Err TypeError
  | PdSeries values => Ok values
  | PdFrame f => Ok (map Str (columns f))
  end.

(** [d.get(key)] for the [dict] built from a list of pairs and a string
    key: a later pair replaces an earlier one of the same key. *)
Fixpoint dict_get (d : list (Scalar * Scalar)) (key : string) : option Scalar :=
  match d with
  | [] => None
  | (k, v) :: d' =>
      match dict_get d' key with
      | Some v' => Some v'
      | None =>
          match k with
          | Str s => if String.eqb s key then Some v else None
          | _ => None
          end
      end
  end.

(** [df.rename(columns=d)]: a label that is a key of [d] is replaced by
    its value, any other label stays. *)
Definition rename_label (d : list (Scalar * Scalar)) (l : string) : Scalar :=
  match dict_get d l with
  | Some v => v
  | None => Str l
  end.

Definition rename (f : Frame string) (d : list (Scalar * Scalar)) : Frame Scalar :=
  mkFrame (map (rename_label d) (columns f)) (rows f).

(** The positions of the columns of a renamed table labelled [key]. *)
Fixpoint label_positions (key : string) (labels : list Scalar) (i : nat) : list nat :=
  match labels with
  | [] => []
  | Str l :: ls =>
      if String.eqb l key then i :: label_positions key ls (S i)
      else label_positions key ls (S i)
  | _ :: ls => label_positions key ls (S i)
  end.

(** [df.dropna(subset=[key])]: a label that is absent raises; a row is
    kept when none of its cells under that label is missing. *)
Definition dropna (f : Frame Scalar) (key : string) : result (Frame Scalar) :=
  match label_positions key (columns f) 0 with
  | [] => Err KeyError
  | ps => Ok (mkFrame (columns f)
                (filter (fun r => forallb (fun i => notna (cell i r)) ps) (rows f)))
  end.

(** Row [i] of a table among tables of more rows: missing cells. *)
Definition padded_row (i : nat) (f : Frame string) : list Scalar :=
  nth i (rows f) (repeat NA (ncols f)).

(** [pd.concat(parts, axis=1)] of tables with the default index: the
    columns side by side, as many rows as the longest part. *)
Definition concat_columns (parts : list (Frame string)) : result (Frame string) :=
  match parts with
  | [] => Err ValueError
  | _ =>
      let n := fold_right Nat.max 0 (map nrows parts) in
      Ok (mkFrame (flat_map columns parts)
            (map (fun i => flat_map (padded_row i) parts) (seq 0 n)))
  end.

End Pd.

(** The keyword arguments of [pd.read_csv] the loaders set. *)
Record CsvOptions : Type := mkOptions {
  sep : string;
  engine : string;
  encoding : string
}.

Definition TAB : string := String "009"%char EmptyString.

(** [pd.read_csv(f)] *)
Definition csv_defaults : CsvOptions := mkOptions "," "c" "utf-8".

(** [pd.read_csv(f, sep='\t', engine='python', encoding='cp1252')] *)
Definition tab_cp1252 : CsvOptions := mkOptions TAB "python" "cp1252".

(** ** The loaders of bpt.py *)

Definition years_for_exception : list string := ["2014"; "2015"].

(** [any(x in dir_to_query for x in years_for_exception)] *)
Definition is_exception_year (dir_to_query : string) : bool :=
  existsb (fun x => PyStr.contains x dir_to_query) years_for_exception.

Definition BID_ID : string := "BID ID (H-number, Plan ID, Segment ID)".

(** [l[-2]] *)
Definition second_to_last {A : Type} (l : list A) : result A :=
  match nth_error (rev l) 1 with
  | Some a => Ok a
  | None => Err IndexError
  end.

Record BPT : Type := mkBPT {
  year : string;
  data_dict : Frame string;
  ma_1 : Frame Scalar;
  ma_2 : Frame Scalar;
  ma_3 : Frame Scalar;
  ma_4 : Frame Scalar;
  ma_5 : Frame Scalar;
  ma_6 : Frame Scalar;
  ma_7 : Frame Scalar
}.

Section Loaders.

(** The table parser of pandas, applied to the bytes of an archive member;
    it raises on input it cannot parse. *)
Variable read_csv : CsvOptions -> string -> result (Frame string).

Variable fs : FileSystem.

(** The body of the innermost loop of [load_data_dict]. *)
Definition dict_member (zippedFile : ZipFile) (data_dict : option (Frame string))
    (zippedObj : string) : result (option (Frame string)) :=
  if PyStr.endswith ".csv" zippedObj then
    f <- Zip.open_member zippedFile zippedObj ;;
    t <- read_csv csv_defaults f ;;
    Ok (Some t)
  else Ok data_dict.

Definition dict_file (dir_to_query : string) (data_dict : option (Frame string))
    (file : string) : result (option (Frame string)) :=
  if PyStr.contains "dictionary" file then
    let full_path_to_zip := OS.path_join dir_to_query file in
    if PyStr.endswith ".zip" full_path_to_zip then
      zippedFile <- Zip.open_archive fs full_path_to_zip ;;
      for_each (dict_member zippedFile) (Zip.namelist zippedFile) data_dict
    else Ok data_dict
  else Ok data_dict.

Definition load_data_dict (dir_to_query : string) : result (Frame string) :=
  if negb (OS.path_exists fs dir_to_query) then Err AssertionError
  else
    data_dict <- for_each (fun data_dict files =>
                   for_each (dict_file dir_to_query) files data_dict)
                   (OS.walk fs dir_to_query) None ;;
    read_local data_dict.

(** The list comprehensions of [load_sheet] that choose the archives. *)
Definition dir_of_interest (dir_to_query worksheet : string) (tmp : list string)
  : list string :=
  if is_exception_year dir_to_query then filter (PyStr.contains "_ma") tmp
  else filter (PyStr.contains worksheet) tmp.

Definition sheet_member (worksheet : string) (zmaobj : ZipFile)
    (df : option (Frame string)) (name : string) : result (option (Frame string)) :=
  if PyStr.contains worksheet name then
    f <- Zip.open_member zmaobj name ;;
    t <- read_csv tab_cp1252 f ;;
    Ok (Some t)
  else Ok df.

Definition sheet_archive (dir_to_query worksheet : string)
    (df : option (Frame string)) (d : string) : result (option (Frame string)) :=
  zmaobj <- Zip.open_archive fs (OS.path_join dir_to_query d) ;;
  for_each (sheet_member worksheet zmaobj) (Zip.namelist zmaobj) df.

Definition load_sheet (dir_to_query worksheet : string) : result (Frame string) :=
  df <- for_each (fun df objs =>
          for_each (sheet_archive dir_to_query worksheet)
            (dir_of_interest dir_to_query worksheet objs) df)
          (OS.walk fs dir_to_query) None ;;
  read_local df.

(** The body of the loop of [load_county_data] over the members of an
    archive; [county.append] is the state. *)
Definition county_member (dir_to_query : string) (zf : ZipFile)
    (county : list (Frame string)) (f : string) : result (list (Frame string)) :=
  if is_exception_year dir_to_query then
    if PyStr.contains "ma_5" f then
      if PyStr.endswith ".txt" f then
        b <- Zip.open_member zf f ;;
        tmp <- read_csv tab_cp1252 b ;;
        Ok (county ++ [tmp])
      else Ok county
    else Ok county
  else
    if PyStr.endswith ".txt" f then
      b <- Zip.open_member zf f ;;
      tmp <- read_csv tab_cp1252 b ;;
      Ok (county ++ [tmp])
    else Ok county.

(** [worksheet] is searched as a regular expression; the model takes it
    without metacharacters, as the default ["ma_5"] is. *)
Definition county_file (dir_to_query worksheet : string)
    (county : list (Frame string)) (obj : string) : result (list (Frame string)) :=
  if PyStr.contains worksheet obj then
    let fullzippath := OS.path_join dir_to_query obj in
    zf <- Zip.open_archive fs fullzippath ;;
    for_each (county_member dir_to_query zf) (Zip.namelist zf) county
  else Ok county.

(** The list [county] when the loops of [load_county_data] are over. *)
Definition county_parts (dir_to_query worksheet : string)
  : result (list (Frame string)) :=
  for_each (fun county objs =>
    for_each (county_file dir_to_query worksheet) objs county)
    (OS.walk fs dir_to_query) [].

Definition load_county_data (dir_to_query worksheet : string)
  : result (Frame string) :=
  county <- county_parts dir_to_query worksheet ;;
  Pd.concat_columns county.

(** The [dict(zip(...))] of [replace_field_to_name]. *)
Definition field_mapping (data_dict : Frame string)
  : result (list (Scalar * Scalar)) :=
  names <- Pd.getitem data_dict "NAME" ;;
  let fields :=
    Pd.squeeze (Pd.iloc_columns data_dict (Pd.str_contains "FIELD" (columns data_dict))) in
  keys <- Pd.iter names ;;
  values <- Pd.iter fields ;;
  Ok (combine keys values).

Definition replace_field_to_name (data_dict df : Frame string)
  : result (Frame Scalar) :=
  d <- field_mapping data_dict ;;
  Ok (Pd.rename df d).

Definition data_loader (dirpath worksheet : string) (data_dict : Frame string)
  : result (Frame Scalar) :=
  df <- load_sheet dirpath worksheet ;;
  renamed_df <- replace_field_to_name data_dict df ;;
  Pd.dropna renamed_df BID_ID.

(** [BPT.__init__]: the object exists once every assignment is done. *)
Definition BPT_init (yeardir : string) : result BPT :=
  year <- second_to_last (PyStr.split "/" yeardir) ;;
  data_dict <- load_data_dict yeardir ;;
  ma_1 <- data_loader yeardir "ma_1" data_dict ;;
  ma_2 <- data_loader yeardir "ma_2" data_dict ;;
  ma_3 <- data_loader yeardir "ma_3" data_dict ;;
  ma_4 <- data_loader yeardir "ma_4" data_dict ;;
  ma_5 <- data_loader yeardir "ma_5" data_dict ;;
  ma_6 <- data_loader yeardir "ma_6" data_dict ;;
  ma_7 <- data_loader yeardir "ma_7" data_dict ;;
  Ok (mkBPT year data_dict ma_1 ma_2 ma_3 ma_4 ma_5 ma_6 ma_7).

End Loaders.

(** ** Concrete directories *)

Module Fixture.

Definition LF : string := String "010"%char EmptyString.

Definition field (s : string) : Scalar :=
  if String.eqb s "" then NA else Str s.

(** A small reader for the examples below, in place of pandas': the first
    line is the header, the fields of a line are split at the separator,
    an empty field is a missing value. No quoting and no numbers. *)
Definition read_csv (o : CsvOptions) (bytes : string) : result (Frame string) :=
  match sep o with
  | EmptyString => Err ValueError
  | String c _ =>
      match PyStr.split "010" bytes with
      | [] => Err EmptyDataError
      | header :: lines =>
          if String.eqb header "" then Err EmptyDataError
          else Ok (mkFrame (PyStr.split c header)
                     (map (fun l => map field (PyStr.split c l)) lines))
      end
  end.

(** The bytes of a delimited text file. *)
Definition text (sep : string) (lines : list (list string)) : string :=
  String.concat LF (map (String.concat sep) lines).

Definition dictionary_csv : string :=
  text "," [["NAME"; "FIELD_TITLE"]; ["F1"; "Plan Name"]; ["F2"; "Region"]].

Definition sheet_txt (tag : string) : string :=
  text TAB [[BID_ID; "F1"; "F2"; "X"];
            ["H0001-001-0"; tag; "north"; "1"];
            [""; tag; "south"; "2"];
            ["H0002-001-0"; tag; ""; "3"]].

Definition sheet_zip (tag : string) : Node :=
  File ("bpt_" ++ tag ++ ".zip") (ZipData [((tag ++ ".txt")%string, sheet_txt tag)]).

Definition county_a : string :=
  text TAB [[BID_ID; "A"]; ["H0001-001-0"; "a1"]; ["H0002-001-0"; "a2"]].

Definition county_b : string :=
  text TAB [[BID_ID; "B"]; ["H0001-001-0"; "b1"]; ["H0002-001-0"; "b2"]].

(** A year directory [data/2020/] with the dictionary, the seven worksheet
    archives, and a benchmark archive of two county parts. *)
Definition year2020 : list Node :=
  [ File "dictionary.zip" (ZipData [("dictionary.csv", dictionary_csv)]);
    sheet_zip "ma_1"; sheet_zip "ma_2"; sheet_zip "ma_3"; sheet_zip "ma_4";
    File "bpt_ma_5.zip" (ZipData [("ma_5_a.txt", county_a); ("ma_5_b.txt", county_b)]);
    sheet_zip "ma_6"; sheet_zip "ma_7" ].

Definition fs2020 : FileSystem := [Dir "data" [Dir "2020" year2020]].

(** A legacy year directory [data/2014/]: one archive holds every
    worksheet. *)
Definition fs2014 : FileSystem :=
  [Dir "data" [Dir "2014"
    [ File "dictionary.zip" (ZipData [("dictionary.csv", dictionary_csv)]);
      File "bpt_ma.zip" (ZipData [("ma_1.txt", sheet_txt "ma_1");
                                  ("ma_3.txt", sheet_txt "ma_3")]) ]]].

(** A year directory without any file. *)
Definition fs_empty : FileSystem := [Dir "data" [Dir "2020" []]].

(** The dictionary archive one level below the year directory. *)
Definition fs_nested : FileSystem :=
  [Dir "data" [Dir "2020"
    [Dir "docs" [File "dictionary.zip" (ZipData [("dictionary.csv", dictionary_csv)])]]]].

(** Three county parts of one column and two rows each. *)
Definition part (label : string) : string :=
  text TAB [[label]; [(label ++ "1")%string]; [(label ++ "2")%string]].

Definition fs_county : FileSystem :=
  [Dir "data" [Dir "2020"
    [ File "bpt_ma_5_east.zip" (ZipData [("east.txt", part "E")]);
      File "bpt_ma_5_west.zip" (ZipData [("north.txt", part "N"); ("readme.md", "x");
                                         ("south.txt", part "S")]) ]]].

(** A worksheet archive whose member lacks the key column. *)
Definition fs_nokey : FileSystem :=
  [Dir "data" [Dir "2020"
    [ File "bpt_ma_1.zip"
        (ZipData [("ma_1.txt", text TAB [["F1"; "X"]; ["a"; "1"]])]) ]]].

(** A year directory with a dictionary archive among other files. *)
Definition fs_nokey_with_dictionary : FileSystem :=
  [Dir "data" [Dir "2020"
    [ File "notes.txt" (OtherData "x");
      File "dictionary.zip"
        (ZipData [("readme.md", "x"); ("dictionary.csv", dictionary_csv)]) ]]].

(** A legacy year directory whose benchmark archive has no member the
    County Data Loader parses: one [.txt] without [ma_5] in its name, one
    with [ma_5] that is no [.txt]. *)
Definition fs_county_legacy : FileSystem :=
  [Dir "data" [Dir "2015"
    [ File "bpt_ma_5.zip" (ZipData [("notes.txt", part "N"); ("ma_5.csv", part "C")]) ]]].

(** County parts of two rows and of one row. *)
Definition fs_county_ragged : FileSystem :=
  [Dir "data" [Dir "2020"
    [ File "bpt_ma_5.zip"
        (ZipData [("long.txt", part "L"); ("short.txt", text TAB [["S"]; ["S1"]])]) ]]].

(** A single county part. *)
Definition fs_county_one : FileSystem :=
  [Dir "data" [Dir "2020" [File "bpt_ma_5.zip" (ZipData [("east.txt", part "E")])]]].

(** A year directory whose one worksheet file is no zip archive. *)
Definition fs_not_zip : FileSystem :=
  [Dir "data" [Dir "2020" [File "bpt_ma_1.zip" (OtherData "not an archive")]]].

(** Data dictionaries. *)
Definition dict_two_rows : Frame string :=
  mkFrame ["NAME"; "FIELD_TITLE"] [[Str "F1"; Str "Plan Name"]; [Str "F2"; Str "Region"]].

Definition dict_one_row : Frame string :=
  mkFrame ["NAME"; "FIELD_TITLE"] [[Str "F1"; Str "Plan Name"]].

Definition dict_two_fields : Frame string :=
  mkFrame ["NAME"; "FIELD_TITLE"; "FIELD_LENGTH"]
    [[Str "F1"; Str "Plan Name"; Num 50]; [Str "F2"; Str "Region"; Num 20]].

Definition worksheet : Frame string :=
  mkFrame ["F1"; "F2"; "X"] [[Str "a"; Str "b"; Str "c"]].

End Fixture.

(** ** The vocabulary of the properties *)

(** [raises r name]: the call ended with an exception of class [name]. *)
Definition raises {A : Type} (r : result A) (name : string) : Prop :=
  exists e, r = Err e /\ exn_name e = name.


Definition worksheet_tags : list string :=
  ["ma_1"; "ma_2"; "ma_3"; "ma_4"; "ma_5"; "ma_6"; "ma_7"].

Section ConstructionSteps.

Variable read_csv : CsvOptions -> string -> result (Frame string).
Variable fs : FileSystem.

(** One of the steps of the constructor raises when run on its own. *)
Definition some_step_fails (yeardir : string) : Prop :=
  (exists e, second_to_last (PyStr.split "/" yeardir) = Err e) \/
  (exists e, load_data_dict read_csv fs yeardir = Err e) \/
  (exists dd w e, load_data_dict read_csv fs yeardir = Ok dd /\
                  In w worksheet_tags /\
                  data_loader read_csv fs yeardir w dd = Err e).

(** [e] is raised by the first step, in program order, that raises. *)
Inductive first_failure (yeardir : string) (e : PyError) : Prop :=
| year_fails :
    second_to_last (PyStr.split "/" yeardir) = Err e ->
    first_failure yeardir e
| dictionary_fails (y : string) :
    second_to_last (PyStr.split "/" yeardir) = Ok y ->
    load_data_dict read_csv fs yeardir = Err e ->
    first_failure yeardir e
| worksheet_fails (y : string) (dd : Frame string) (before after : list string)
    (w : string) :
    second_to_last (PyStr.split "/" yeardir) = Ok y ->
    load_data_dict read_csv fs yeardir = Ok dd ->
    worksheet_tags = before ++ w :: after ->
    (forall w', In w' before ->
       exists t, data_loader read_csv fs yeardir w' dd = Ok t) ->
    data_loader read_csv fs yeardir w dd = Err e ->
    first_failure yeardir e.

End ConstructionSteps.

Section SheetProperties.

Variable read_csv : CsvOptions -> string -> result (Frame string).
Variable fs : FileSystem.
Variables dir_to_query worksheet : string.

(** [d] is a file the walk lists and the selection rule keeps. *)
Definition selected (d : string) : Prop :=
  exists objs, In objs (OS.walk fs dir_to_query) /\
               In d (dir_of_interest dir_to_query worksheet objs).

(** [df] is parsed from a member, named with the worksheet tag, of a
    selected archive. *)
Definition sheet_source (df : Frame string) : Prop :=
  exists d zf name bytes,
    selected d /\
    Zip.open_archive fs (OS.path_join dir_to_query d) = Ok zf /\
    In name (Zip.namelist zf) /\
    PyStr.contains worksheet name = true /\
    Zip.open_member zf name = Ok bytes /\
    read_csv tab_cp1252 bytes = Ok df.

(** No selected archive that opens has a member named with the tag; in
    particular when no archive is selected. *)
Definition no_match : Prop :=
  forall d zf name,
    selected d ->
    Zip.open_archive fs (OS.path_join dir_to_query d) = Ok zf ->
    In name (Zip.namelist zf) ->
    PyStr.contains worksheet name = false.

(** The two states of the local [df] the proofs follow through the loops. *)
Definition bound_from_source (df : option (Frame string)) : Prop :=
  forall t, df = Some t -> sheet_source t.

Definition unbound (df : option (Frame string)) : Prop := df = None.

End SheetProperties.

(** A data dictionary of two columns, the codes under [NAME] and the
    labels under [field], one row per entry. *)
Definition dictionary (field : string) (entries : list (string * Scalar))
  : Frame string :=
  mkFrame ["NAME"; field] (map (fun e => [Str (fst e); snd e]) entries).

Definition coded (entries : list (string * Scalar)) : list (Scalar * Scalar) :=
  map (fun e => (Str (fst e), snd e)) entries.

Section DictionaryProperties.

Variable read_csv : CsvOptions -> string -> result (Frame string).
Variable fs : FileSystem.
Variable dir_to_query : string.

(** [file] is a file the walk lists and the Dictionary Loader opens. *)
Definition dictionary_archive (file : string) : Prop :=
  exists files,
    In files (OS.walk fs dir_to_query) /\ In file files /\
    PyStr.contains "dictionary" file = true /\
    PyStr.endswith ".zip" (OS.path_join dir_to_query file) = true.

(** [t] is parsed from a [.csv] member of such a file. *)
Definition dictionary_source (t : Frame string) : Prop :=
  exists file zf name bytes,
    dictionary_archive file /\
    Zip.open_archive fs (OS.path_join dir_to_query file) = Ok zf /\
    In name (Zip.namelist zf) /\
    PyStr.endswith ".csv" name = true /\
    Zip.open_member zf name = Ok bytes /\
    read_csv csv_defaults bytes = Ok t.

(** The state of the local [data_dict] the proofs follow through the
    loops. *)
Definition dict_from_source (data_dict : option (Frame string)) : Prop :=
  forall t, data_dict = Some t -> dictionary_source t.

End DictionaryProperties.

Section CountyProperties.

Variable read_csv : CsvOptions -> string -> result (Frame string).
Variable fs : FileSystem.
Variable dir_to_query : string.

(** [t] is parsed from a [.txt] member (in a legacy year, one with [ma_5]
    in its name) of a listed file with [ma_5] in its name. *)
Definition county_source (t : Frame string) : Prop :=
  exists objs obj zf f bytes,
    In objs (OS.walk fs dir_to_query) /\ In obj objs /\
    PyStr.contains "ma_5" obj = true /\
    Zip.open_archive fs (OS.path_join dir_to_query obj) = Ok zf /\
    In f (Zip.namelist zf) /\
    PyStr.endswith ".txt" f = true /\
    (is_exception_year dir_to_query = true -> PyStr.contains "ma_5" f = true) /\
    Zip.open_member zf f = Ok bytes /\
    read_csv tab_cp1252 bytes = Ok t.

End CountyProperties.

(** Every row has one cell per column. *)
Definition rectangular {L : Type} (f : Frame L) : Prop :=
  Forall (fun r => length r = ncols f) (rows f).

(** A table has the bid column, and no row without a bid. *)
Definition keyed (t : Frame Scalar) : Prop :=
  In (Str BID_ID) (columns t) /\
  forall row i,
    In row (rows t) -> nth_error (columns t) i = Some (Str BID_ID) ->
    Pd.cell i row <> NA.



(** A file name as a directory listing gives it: not empty, not ["."],
    without a slash. *)
Definition file_name_ok (file : string) : Prop :=
  file <> "" /\ file <> "." /\ PyStr.lacks "/" file = true.

(** ** Loops and the error monad *)

Lemma bind_ok {A B : Type} (m : result A) (k : A -> result B) (b : B) :
  bind m k = Ok b -> exists a, m = Ok a /\ k a = Ok b.
Proof.
  destruct m as [a | e]; simpl; intros H; [exists a; auto | discriminate].
Qed.

Lemma bind_err {A B : Type} (m : result A) (k : A -> result B) (e : PyError) :
  bind m k = Err e -> m = Err e \/ exists a, m = Ok a /\ k a = Err e.
Proof.
  destruct m as [a | e']; simpl; intros H; [right; exists a; auto | left; congruence].
Qed.

(** A property of the loop state that every iteration keeps holds when the
    loop ends normally. *)
Lemma for_each_invariant {S A : Type} (P : S -> Prop) (body : S -> A -> result S) :
  forall (xs : list A) (s s' : S),
    (forall x t t', In x xs -> P t -> body t x = Ok t' -> P t') ->
    P s -> for_each body xs s = Ok s' -> P s'.
Proof.
  induction xs as [| x xs IH]; simpl; intros s s' Hbody Hs Hrun.
  - injection Hrun as <-. exact Hs.
  - apply bind_ok in Hrun. destruct Hrun as [t [Hx Hrest]].
    apply (IH t s').
    + intros y u u' Hy. apply Hbody. right. exact Hy.
    + apply (Hbody x s t); auto.
    + exact Hrest.
Qed.

(** A loop whose iterations all end normally ends normally. *)
Lemma for_each_total {S A : Type} (P : S -> Prop) (body : S -> A -> result S) :
  forall (xs : list A) (s : S),
    (forall x t, In x xs -> P t -> exists t', body t x = Ok t' /\ P t') ->
    P s -> exists s', for_each body xs s = Ok s' /\ P s'.
Proof.
  induction xs as [| x xs IH]; simpl; intros s Hbody Hs.
  - exists s. auto.
  - destruct (Hbody x s (or_introl eq_refl) Hs) as [t [Hx Ht]].
    rewrite Hx. simpl. apply IH; [| exact Ht].
    intros y u Hy. apply Hbody. right. exact Hy.
Qed.

(** ** Splitting a path *)

Lemma split_not_nil (c : ascii) (s : string) : PyStr.split c s <> [].
Proof.
  destruct s as [| a s]; simpl; [discriminate |].
  destruct (Ascii.eqb a c); [discriminate |].
  destruct (PyStr.split c s); discriminate.
Qed.

Lemma split_at_separator (c : ascii) (a b : string) :
  PyStr.split c (a ++ String c b) = PyStr.split c a ++ PyStr.split c b.
Proof.
  induction a as [| x a IH]; simpl.
  - rewrite Ascii.eqb_refl. reflexivity.
  - rewrite IH. destruct (Ascii.eqb x c); [reflexivity |].
    destruct (PyStr.split c a) as [| seg segs] eqn:E.
    + exfalso. exact (split_not_nil c a E).
    + reflexivity.
Qed.

Lemma split_without_separator (c : ascii) (s : string) :
  PyStr.lacks c s = true -> PyStr.split c s = [s].
Proof.
  induction s as [| a s IH]; simpl; intros H; [reflexivity |].
  apply andb_true_iff in H. destruct H as [Ha Hs].
  apply negb_true_iff in Ha. rewrite Ha, (IH Hs). reflexivity.
Qed.


Lemma second_to_last_inv {A : Type} (l : list A) (a : A) :
  second_to_last l = Ok a -> exists front b, l = front ++ [a; b].
Proof.
  unfold second_to_last. intros H.
  destruct (rev l) as [| b [| a' r]] eqn:E; simpl in H; try discriminate.
  injection H as ->.
  exists (rev r), b.
  rewrite <- (rev_involutive l), E. simpl. rewrite <- app_assoc. reflexivity.
Qed.


(** ** Bundle construction *)

Section Construction.

Variable read_csv : CsvOptions -> string -> result (Frame string).
Variable fs : FileSystem.

(** A Bundle exists only when every step of the constructor has succeeded,
    and then it holds what the steps returned. *)
Lemma BPT_init_ok (yeardir : string) (b : BPT) :
  BPT_init read_csv fs yeardir = Ok b ->
  second_to_last (PyStr.split "/" yeardir) = Ok (year b) /\
  load_data_dict read_csv fs yeardir = Ok (data_dict b) /\
  data_loader read_csv fs yeardir "ma_1" (data_dict b) = Ok (ma_1 b) /\
  data_loader read_csv fs yeardir "ma_2" (data_dict b) = Ok (ma_2 b) /\
  data_loader read_csv fs yeardir "ma_3" (data_dict b) = Ok (ma_3 b) /\
  data_loader read_csv fs yeardir "ma_4" (data_dict b) = Ok (ma_4 b) /\
  data_loader read_csv fs yeardir "ma_5" (data_dict b) = Ok (ma_5 b) /\
  data_loader read_csv fs yeardir "ma_6" (data_dict b) = Ok (ma_6 b) /\
  data_loader read_csv fs yeardir "ma_7" (data_dict b) = Ok (ma_7 b).
Proof.
  unfold BPT_init. intros H.
  repeat (apply bind_ok in H; destruct H as [? [? H]]).
  injection H as <-. simpl. repeat split; assumption.
Qed.

End Construction.

Ltac sheet_step yeardir dd tag before after y :=
  let t := fresh "t" in
  let e := fresh "e" in
  let E := fresh "E" in
  destruct (data_loader _ _ yeardir tag dd) as [t | e] eqn:E; simpl;
  [ | exists e; split;
      [ apply (worksheet_fails _ _ yeardir e y dd before after tag);
        [ assumption | assumption | reflexivity
        | simpl; intros ? ?; intuition (subst; eauto) | assumption ]
      | split; [ reflexivity | discriminate ] ] ].

(** C4. When a step of the constructor fails (the year label, the dictionary
    load, or one of the seven worksheet loads), construction ends with the
    exception of the first step that fails, and no Bundle is returned. *)
Theorem construction_is_all_or_nothing
    (read_csv : CsvOptions -> string -> result (Frame string))
    (fs : FileSystem) (yeardir : string) :
  some_step_fails read_csv fs yeardir ->
  exists e, first_failure read_csv fs yeardir e /\
            BPT_init read_csv fs yeardir = Err e /\
            forall b, BPT_init read_csv fs yeardir <> Ok b.
Proof.
  intros Hfail. unfold BPT_init.
  destruct (second_to_last (PyStr.split "/" yeardir)) as [y | e] eqn:Ey; simpl.
  2:{ exists e. split; [apply year_fails; assumption | split; [reflexivity | discriminate]]. }
  destruct (load_data_dict read_csv fs yeardir) as [dd | e] eqn:Ed; simpl.
  2:{ exists e. split; [apply (dictionary_fails _ _ _ _ y); assumption
                       | split; [reflexivity | discriminate]]. }
  sheet_step yeardir dd "ma_1" (@nil string) ["ma_2"; "ma_3"; "ma_4"; "ma_5"; "ma_6"; "ma_7"] y.
  sheet_step yeardir dd "ma_2" ["ma_1"] ["ma_3"; "ma_4"; "ma_5"; "ma_6"; "ma_7"] y.
  sheet_step yeardir dd "ma_3" ["ma_1"; "ma_2"] ["ma_4"; "ma_5"; "ma_6"; "ma_7"] y.
  sheet_step yeardir dd "ma_4" ["ma_1"; "ma_2"; "ma_3"] ["ma_5"; "ma_6"; "ma_7"] y.
  sheet_step yeardir dd "ma_5" ["ma_1"; "ma_2"; "ma_3"; "ma_4"] ["ma_6"; "ma_7"] y.
  sheet_step yeardir dd "ma_6" ["ma_1"; "ma_2"; "ma_3"; "ma_4"; "ma_5"] ["ma_7"] y.
  sheet_step yeardir dd "ma_7" ["ma_1"; "ma_2"; "ma_3"; "ma_4"; "ma_5"; "ma_6"] (@nil string) y.
  exfalso.
  destruct Hfail as [[e He] | [[e He] | [dd' [w [e [Hd [Hw He]]]]]]].
  - congruence.
  - congruence.
  - assert (dd' = dd) as -> by congruence.
    simpl in Hw. intuition (subst; congruence).
Qed.

(** The year directory of [Fixture.fs_nokey] has no dictionary: the
    constructor ends with the dictionary loader's exception. *)
Lemma construction_is_all_or_nothing_witness :
  exists e, first_failure Fixture.read_csv Fixture.fs_nokey "data/2020/" e /\
            BPT_init Fixture.read_csv Fixture.fs_nokey "data/2020/" = Err e /\
            forall b, BPT_init Fixture.read_csv Fixture.fs_nokey "data/2020/" <> Ok b.
Proof.
  apply (construction_is_all_or_nothing Fixture.read_csv Fixture.fs_nokey "data/2020/").
  right. left. exists UnboundLocalError. reflexivity.
Defined.

(** Without the final slash the same directory is labelled [data]. *)
Example year_label_without_final_slash :
  exists b, BPT_init Fixture.read_csv Fixture.fs2020 "data/2020" = Ok b /\
            year b = "data".
Proof.
  destruct (BPT_init Fixture.read_csv Fixture.fs2020 "data/2020") as [b | e] eqn:E;
    vm_compute in E; [| discriminate].
  exists b. split; [reflexivity |].
  injection E as <-. reflexivity.
Qed.

(** A path without a slash has one segment and no Bundle. *)
Example year_label_without_slash :
  BPT_init Fixture.read_csv Fixture.fs2020 "2020" = Err IndexError.
Proof. reflexivity. Qed.

(** ** The benchmark worksheet *)

(** C1. In [data/2020/] of [Fixture.fs2020] the benchmark archive holds two
    county parts. The Bundle's [ma_5] is what [data_loader] returns, the
    last part alone; the table of [load_county_data], which no line of the
    constructor calls, has the columns of both parts. *)
Theorem benchmark_sheet_bypasses_county_loader :
  exists b county,
    BPT_init Fixture.read_csv Fixture.fs2020 "data/2020/" = Ok b /\
    data_loader Fixture.read_csv Fixture.fs2020 "data/2020/" "ma_5" (data_dict b)
      = Ok (ma_5 b) /\
    load_county_data Fixture.read_csv Fixture.fs2020 "data/2020/" "ma_5" = Ok county /\
    columns (ma_5 b) = [Str BID_ID; Str "B"] /\
    columns county = [BID_ID; "A"; BID_ID; "B"].
Proof.
  destruct (BPT_init Fixture.read_csv Fixture.fs2020 "data/2020/") as [b | e] eqn:E;
    [| vm_compute in E; discriminate].
  destruct (load_county_data Fixture.read_csv Fixture.fs2020 "data/2020/" "ma_5")
    as [county | e] eqn:Ec; [| vm_compute in Ec; discriminate].
  exists b, county.
  split; [reflexivity |].
  split; [apply (BPT_init_ok _ _ _ _ E) |].
  split; [reflexivity |].
  vm_compute in E. injection E as <-.
  vm_compute in Ec. injection Ec as <-.
  split; reflexivity.
Qed.

(** ** The dictionary below the year directory *)

(** C9. [data/2020/docs/dictionary.zip] of [Fixture.fs_nested] is listed by
    the walk of [data/2020/], but the loader joins the file name to the
    year directory and not to the directory the walk is in: the archive is
    not opened and the loader ends with [FileNotFoundError]. *)
Theorem dictionary_in_subdirectory_is_not_opened
    (read_csv : CsvOptions -> string -> result (Frame string)) :
  OS.path_exists Fixture.fs_nested "data/2020/" = true /\
  OS.walk Fixture.fs_nested "data/2020/" = [[]; ["dictionary.zip"]] /\
  (exists zf, Zip.open_archive Fixture.fs_nested "data/2020/docs/dictionary.zip" = Ok zf) /\
  load_data_dict read_csv Fixture.fs_nested "data/2020/" = Err FileNotFoundError.
Proof.
  split; [reflexivity |].
  split; [reflexivity |].
  split; [eexists; reflexivity |].
  reflexivity.
Qed.

(** ** Renaming the columns *)

Lemma select_mask {A : Type} (p : A -> bool) (xs : list A) :
  Pd.select (map p xs) xs = filter p xs.
Proof.
  induction xs as [| x xs IH]; simpl; [reflexivity |].
  rewrite IH. reflexivity.
Qed.

Lemma positions_in (key : string) (labels : list string) (i : nat) :
  Pd.positions key labels i = [] <-> ~ In key labels.
Proof.
  revert i. induction labels as [| l ls IH]; intros i; simpl.
  - tauto.
  - destruct (String.eqb_spec l key) as [-> | Hne].
    + split; [discriminate | intros H; exfalso; apply H; left; reflexivity].
    + rewrite IH. tauto.
Qed.

(** Two or more columns are never squeezed to a scalar, so iterating the
    squeezed table does not raise. *)
Lemma iter_squeeze_wide (f : Frame string) :
  2 <= ncols f -> exists values, Pd.iter (Pd.squeeze f) = Ok values.
Proof.
  unfold ncols, Pd.squeeze. intros H.
  destruct (columns f) as [| c1 [| c2 cs]] eqn:E; simpl in H; try lia.
  destruct (rows f) as [| r [| r' rs]]; simpl; rewrite ?E; eexists; reflexivity.
Qed.

Lemma iter_getitem (f : Frame string) (key : string) (o : PdObject) :
  Pd.getitem f key = Ok o -> exists values, Pd.iter o = Ok values.
Proof.
  unfold Pd.getitem.
  destruct (Pd.positions key (columns f) 0) as [| i [| j l]]; intros H;
    [discriminate | |]; injection H as <-; eexists; reflexivity.
Qed.

Lemma dict_get_absent (entries : list (string * Scalar)) (l : string) :
  (forall lab, ~ In (l, lab) entries) -> Pd.dict_get (coded entries) l = None.
Proof.
  induction entries as [| [c v] es IH]; simpl; intros H; [reflexivity |].
  rewrite IH by (intros lab Hin; apply (H lab); right; exact Hin).
  destruct (String.eqb_spec c l) as [-> | Hne]; [| reflexivity].
  exfalso. apply (H v). left. reflexivity.
Qed.

Lemma dict_get_present (entries : list (string * Scalar)) (l : string) (lab : Scalar) :
  NoDup (map fst entries) -> In (l, lab) entries ->
  Pd.dict_get (coded entries) l = Some lab.
Proof.
  induction entries as [| [c v] es IH]; simpl; intros Hnd Hin; [contradiction |].
  inversion Hnd as [| ? ? Hc Hes]; subst.
  destruct Hin as [E | Hin].
  - injection E as -> ->.
    rewrite dict_get_absent.
    + rewrite String.eqb_refl. reflexivity.
    + intros v Hv. apply Hc. apply (in_map fst) in Hv. exact Hv.
  - rewrite (IH Hes Hin). reflexivity.
Qed.

(** With a dictionary of no row, or of two rows and more, the codes are
    paired with the labels: a worksheet column named by a code takes the
    label of the code, and any other column keeps its name. *)
Lemma renamer_on_dictionary (field : string) (entries : list (string * Scalar))
    (df : Frame string) :
  PyStr.contains "FIELD" field = true ->
  length entries <> 1 ->
  NoDup (map fst entries) ->
  exists r,
    replace_field_to_name (dictionary field entries) df = Ok r /\
    rows r = rows df /\
    forall j l,
      nth_error (columns df) j = Some l ->
      (forall lab, In (l, lab) entries -> nth_error (columns r) j = Some lab) /\
      ((forall lab, ~ In (l, lab) entries) -> nth_error (columns r) j = Some (Str l)).
Proof.
  intros Hfield Hlen Hnd.
  assert (String.eqb field "NAME" = false) as Hname.
  { destruct (String.eqb_spec field "NAME") as [-> | _]; [discriminate | reflexivity]. }
  assert (replace_field_to_name (dictionary field entries) df
          = Ok (Pd.rename df (coded entries))) as Hrun.
  { unfold replace_field_to_name, field_mapping, Pd.getitem, dictionary.
    cbn [columns rows Pd.positions Pd.str_contains map].
    rewrite Hname, String.eqb_refl.
    change (PyStr.contains "FIELD" "NAME") with false. rewrite Hfield.
    unfold Pd.squeeze, Pd.iloc_columns. cbn [columns rows Pd.select bind].
    rewrite !map_map.
    destruct entries as [| e1 [| e2 es]]; [reflexivity | contradiction |].
    cbn [map bind Pd.iter]. unfold coded, Pd.cell. cbn [combine map nth].
    do 4 f_equal. clear.
    induction es as [| e es IH]; simpl; congruence. }
  eexists. split; [exact Hrun |]. split; [reflexivity |].
  intros j l Hj. unfold Pd.rename. simpl.
  rewrite nth_error_map, Hj. simpl. unfold Pd.rename_label. split.
  - intros lab Hin. rewrite (dict_get_present _ _ _ Hnd Hin). reflexivity.
  - intros Hno. rewrite (dict_get_absent _ _ Hno). reflexivity.
Qed.

(** The dictionary [F1 -> Plan Name, F2 -> Region] on the columns
    [F1], [F2], [X]. *)
Example renamer_on_two_rows :
  replace_field_to_name Fixture.dict_two_rows Fixture.worksheet
  = Ok (mkFrame [Str "Plan Name"; Str "Region"; Str "X"] (rows Fixture.worksheet)).
Proof. reflexivity. Qed.

(** C6. A data dictionary of the one row [F1, Plan Name]: the column of
    labels is squeezed to the string ["Plan Name"], [zip] iterates it by
    character, and the worksheet column [F1] is renamed to ["P"]. *)
Theorem single_row_dictionary_renames_to_first_character :
  Pd.getitem Fixture.dict_one_row "NAME" = Ok (PdSeries [Str "F1"]) /\
  Pd.getitem Fixture.dict_one_row "FIELD_TITLE" = Ok (PdSeries [Str "Plan Name"]) /\
  replace_field_to_name Fixture.dict_one_row Fixture.worksheet
    = Ok (mkFrame [Str "P"; Str "F2"; Str "X"] (rows Fixture.worksheet)).
Proof.
  repeat split; reflexivity.
Qed.

(** C7 as stated fails: with the two [FIELD] columns of
    [Fixture.dict_two_fields] the renamer returns a table. *)
Lemma several_field_columns_counterexample :
  2 <= length (filter (PyStr.contains "FIELD") (columns Fixture.dict_two_fields)) /\
  ~ raises (replace_field_to_name Fixture.dict_two_fields Fixture.worksheet)
      "AmbiguousDictionarySchema".
Proof.
  split; [vm_compute; lia |].
  intros [e [H _]]. vm_compute in H. discriminate.
Qed.

(** C7, amended. With more than one header matching [FIELD] the renamer
    raises nothing of its own: it ends with [KeyError] when the dictionary
    has no [NAME] column, and otherwise returns the worksheet with its rows
    and its number of columns unchanged. *)
Theorem several_field_columns_still_rename (data_dict df : Frame string) :
  2 <= length (filter (PyStr.contains "FIELD") (columns data_dict)) ->
  (~ In "NAME" (columns data_dict) ->
     replace_field_to_name data_dict df = Err KeyError) /\
  (In "NAME" (columns data_dict) ->
     exists r, replace_field_to_name data_dict df = Ok r /\
               rows r = rows df /\ ncols r = ncols df).
Proof.
  intros Hwide. unfold replace_field_to_name, field_mapping. split.
  - intros Hno. apply positions_in with (i := 0) in Hno.
    unfold Pd.getitem. rewrite Hno. reflexivity.
  - intros Hin.
    destruct (Pd.getitem data_dict "NAME") as [names | e] eqn:En.
    + destruct (iter_getitem _ _ _ En) as [keys Hk].
      destruct (iter_squeeze_wide
                  (Pd.iloc_columns data_dict
                     (Pd.str_contains "FIELD" (columns data_dict)))) as [values Hv].
      { unfold ncols, Pd.iloc_columns, Pd.str_contains. simpl.
        rewrite select_mask. exact Hwide. }
      simpl. rewrite Hk. simpl. rewrite Hv. simpl.
      eexists. split; [reflexivity |].
      split; [reflexivity |].
      unfold ncols, Pd.rename. simpl. apply length_map.
    + exfalso. unfold Pd.getitem in En.
      destruct (Pd.positions "NAME" (columns data_dict) 0) as [| i [| j l]] eqn:Ep;
        try discriminate.
      apply (proj1 (positions_in "NAME" (columns data_dict) 0) Ep). exact Hin.
Qed.

Lemma several_field_columns_still_rename_witness :
  exists r, replace_field_to_name Fixture.dict_two_fields Fixture.worksheet = Ok r /\
            rows r = rows Fixture.worksheet /\ ncols r = ncols Fixture.worksheet.
Proof.
  apply (several_field_columns_still_rename Fixture.dict_two_fields Fixture.worksheet).
  - vm_compute. lia.
  - simpl. left. reflexivity.
Defined.

(** ** County parts side by side *)





(** ** Dropping the rows without a bid *)

Lemma label_positions_spec (key : string) (labels : list Scalar) (k i : nat) :
  In i (Pd.label_positions key labels k) <->
  exists j, i = k + j /\ nth_error labels j = Some (Str key).
Proof.
  revert k. induction labels as [| l ls IH]; intros k; simpl.
  - split; [tauto | intros [[| j] [_ H]]; discriminate].
  - assert (In i (Pd.label_positions key ls (S k)) <->
            exists j, i = k + S j /\ nth_error ls j = Some (Str key)) as Hrest.
    { rewrite IH. split; intros [j [E H]]; exists j; split; auto; lia. }
    assert (l <> Str key ->
            ((exists j, i = k + S j /\ nth_error ls j = Some (Str key)) <->
             (exists j, i = k + j /\ nth_error (l :: ls) j = Some (Str key)))) as Hskip.
    { intros Hne. split.
      - intros [j [E H]]. exists (S j). auto.
      - intros [[| j] [E H]]; simpl in H; [congruence | exists j; auto]. }
    destruct l as [| s | m]; try (rewrite Hrest; apply Hskip; discriminate).
    destruct (String.eqb_spec s key) as [-> | Hne].
    + simpl. rewrite Hrest. split.
      * intros [<- | [j [E H]]]; [exists 0; split; [lia | reflexivity] | exists (S j); auto].
      * intros [[| j] [E H]]; [left; lia | right; exists j; auto].
    + rewrite Hrest. apply Hskip. congruence.
Qed.

Lemma label_positions_nil (key : string) (labels : list Scalar) :
  Pd.label_positions key labels 0 = [] <-> ~ In (Str key) labels.
Proof.
  split.
  - intros E Hin. apply In_nth_error in Hin. destruct Hin as [j Hj].
    assert (In j (Pd.label_positions key labels 0)) as H
      by (apply label_positions_spec; exists j; auto).
    rewrite E in H. exact H.
  - intros Hno.
    destruct (Pd.label_positions key labels 0) as [| i l] eqn:E; [reflexivity |].
    exfalso. apply Hno.
    assert (In i (Pd.label_positions key labels 0)) as H by (rewrite E; left; reflexivity).
    apply label_positions_spec in H. destruct H as [j [_ Hj]].
    apply nth_error_In in Hj. exact Hj.
Qed.

(** C8 as stated fails: the worksheet of [Fixture.fs_nokey] has no key
    column after renaming, and the exception is pandas' [KeyError]. *)
Lemma missing_key_column_counterexample :
  exists df renamed,
    load_sheet Fixture.read_csv Fixture.fs_nokey "data/2020/" "ma_1" = Ok df /\
    replace_field_to_name Fixture.dict_two_rows df = Ok renamed /\
    ~ In (Str BID_ID) (columns renamed) /\
    ~ raises (data_loader Fixture.read_csv Fixture.fs_nokey "data/2020/" "ma_1"
                Fixture.dict_two_rows) "KeyColumnMissing".
Proof.
  eexists. eexists.
  split; [vm_compute; reflexivity |].
  split; [vm_compute; reflexivity |].
  split.
  - simpl. intros [H | [H | []]]; discriminate.
  - intros [e [H Hn]]. vm_compute in H. injection H as <-. discriminate.
Qed.

(** C8, amended. The Data Loader removes exactly the rows of the renamed
    worksheet with a missing value under the label
    [BID ID (H-number, Plan ID, Segment ID)] (under any column of that label,
    should renaming have made several) and keeps the others in order; when no
    column has that label after renaming it ends with [KeyError]. *)
Theorem data_loader_drops_rows_without_key
    (read_csv : CsvOptions -> string -> result (Frame string))
    (fs : FileSystem) (dirpath worksheet : string)
    (data_dict df : Frame string) (renamed : Frame Scalar) :
  load_sheet read_csv fs dirpath worksheet = Ok df ->
  replace_field_to_name data_dict df = Ok renamed ->
  (In (Str BID_ID) (columns renamed) ->
     exists out keep,
       data_loader read_csv fs dirpath worksheet data_dict = Ok out /\
       columns out = columns renamed /\
       rows out = filter keep (rows renamed) /\
       forall row,
         keep row = true <->
         (forall i, nth_error (columns renamed) i = Some (Str BID_ID) ->
                    Pd.cell i row <> NA)) /\
  (~ In (Str BID_ID) (columns renamed) ->
     data_loader read_csv fs dirpath worksheet data_dict = Err KeyError).
Proof.
  intros Hsheet Hrename. unfold data_loader. rewrite Hsheet. simpl.
  rewrite Hrename. simpl. unfold Pd.dropna. split.
  - intros Hin.
    destruct (Pd.label_positions BID_ID (columns renamed) 0) as [| p ps] eqn:E.
    + exfalso. apply (proj1 (label_positions_nil _ _) E). exact Hin.
    + eexists. eexists. split; [reflexivity |].
      split; [reflexivity |]. split; [reflexivity |].
      intros row. rewrite forallb_forall. rewrite <- E. split.
      * intros H i Hi Hna.
        assert (In i (Pd.label_positions BID_ID (columns renamed) 0)) as Hp
          by (apply label_positions_spec; exists i; auto).
        specialize (H i Hp). rewrite Hna in H. discriminate.
      * intros H i Hp. apply label_positions_spec in Hp.
        destruct Hp as [j [-> Hj]]. simpl.
        specialize (H j Hj). destruct (Pd.cell j row); [congruence | reflexivity | reflexivity].
  - intros Hno. apply label_positions_nil in Hno. rewrite Hno. reflexivity.
Qed.

(** In [data/2020/] of [Fixture.fs2020] the second of the three rows of
    [ma_1] has no bid and is dropped. *)
Lemma data_loader_drops_rows_without_key_witness :
  exists out keep,
    data_loader Fixture.read_csv Fixture.fs2020 "data/2020/" "ma_1" Fixture.dict_two_rows
      = Ok out /\
    columns out = [Str BID_ID; Str "Plan Name"; Str "Region"; Str "X"] /\
    rows out = filter keep
                 [[Str "H0001-001-0"; Str "ma_1"; Str "north"; Str "1"];
                  [NA; Str "ma_1"; Str "south"; Str "2"];
                  [Str "H0002-001-0"; Str "ma_1"; NA; Str "3"]] /\
    forall row,
      keep row = true <->
      (forall i, nth_error [Str BID_ID; Str "Plan Name"; Str "Region"; Str "X"] i
                   = Some (Str BID_ID) ->
                 Pd.cell i row <> NA).
Proof.
  apply (data_loader_drops_rows_without_key
           Fixture.read_csv Fixture.fs2020 "data/2020/" "ma_1" Fixture.dict_two_rows
           (mkFrame [BID_ID; "F1"; "F2"; "X"]
              [[Str "H0001-001-0"; Str "ma_1"; Str "north"; Str "1"];
               [NA; Str "ma_1"; Str "south"; Str "2"];
               [Str "H0002-001-0"; Str "ma_1"; NA; Str "3"]])
           (mkFrame [Str BID_ID; Str "Plan Name"; Str "Region"; Str "X"]
              [[Str "H0001-001-0"; Str "ma_1"; Str "north"; Str "1"];
               [NA; Str "ma_1"; Str "south"; Str "2"];
               [Str "H0002-001-0"; Str "ma_1"; NA; Str "3"]])).
  - reflexivity.
  - reflexivity.
  - simpl. left. reflexivity.
Defined.

(** ** The Sheet Loader *)

(** A loop that ends with an exception: some iteration raised it, from a
    state the earlier iterations had reached. *)
Lemma for_each_raises {S A : Type} (P : S -> Prop) (body : S -> A -> result S) :
  forall (xs : list A) (s : S) (e : PyError),
    (forall x t t', In x xs -> P t -> body t x = Ok t' -> P t') ->
    P s -> for_each body xs s = Err e ->
    exists x t, In x xs /\ P t /\ body t x = Err e.
Proof.
  induction xs as [| x xs IH]; simpl; intros s e Hbody Hs Hrun; [discriminate |].
  apply bind_err in Hrun. destruct Hrun as [Hx | [t [Hx Hrest]]].
  - exists x, s. auto.
  - destruct (IH t e) as [y [u [Hy [Hu He]]]]; auto.
    + intros y u u' Hy. apply Hbody. right. exact Hy.
    + apply (Hbody x s t); auto.
    + exists y, u. auto.
Qed.

(** A loop that ends normally has run every iteration to its end. *)
Lemma for_each_ran {S A : Type} (body : S -> A -> result S) :
  forall (xs : list A) (s s' : S) (x : A),
    for_each body xs s = Ok s' -> In x xs -> exists t t', body t x = Ok t'.
Proof.
  induction xs as [| y xs IH]; simpl; intros s s' x Hrun Hx; [contradiction |].
  apply bind_ok in Hrun. destruct Hrun as [t [Hy Hrest]].
  destruct Hx as [-> | Hx].
  - exists s, t. exact Hy.
  - apply (IH t s' x Hrest Hx).
Qed.

Section SheetLoader.

Variable read_csv : CsvOptions -> string -> result (Frame string).
Variable fs : FileSystem.
Variables dir_to_query worksheet : string.

Local Abbreviation is_selected := (selected fs dir_to_query worksheet).
Local Abbreviation from_source :=
  (bound_from_source read_csv fs dir_to_query worksheet).

Lemma sheet_member_source (d : string) (zf : ZipFile) :
  is_selected d ->
  Zip.open_archive fs (OS.path_join dir_to_query d) = Ok zf ->
  forall name df df',
    In name (Zip.namelist zf) -> from_source df ->
    sheet_member read_csv worksheet zf df name = Ok df' ->
    from_source df'.
Proof.
  intros Hd Hzf name df df' Hname Hdf. unfold sheet_member.
  destruct (PyStr.contains worksheet name) eqn:Ew.
  - intros H. apply bind_ok in H. destruct H as [bytes [Hb H]].
    apply bind_ok in H. destruct H as [t [Ht H]]. injection H as <-.
    intros t' Et. injection Et as <-.
    exists d, zf, name, bytes. auto 10.
  - intros H. injection H as <-. exact Hdf.
Qed.

Lemma sheet_archive_source (d : string) (df df' : option (Frame string)) :
  is_selected d -> from_source df ->
  sheet_archive read_csv fs dir_to_query worksheet df d = Ok df' ->
  from_source df'.
Proof.
  intros Hd Hdf H. unfold sheet_archive in H.
  apply bind_ok in H. destruct H as [zf [Hzf H]].
  apply (for_each_invariant from_source _ _ _ _
           (sheet_member_source d zf Hd Hzf) Hdf H).
Qed.

Lemma load_sheet_source (df : Frame string) :
  load_sheet read_csv fs dir_to_query worksheet = Ok df ->
  sheet_source read_csv fs dir_to_query worksheet df.
Proof.
  unfold load_sheet. intros H. apply bind_ok in H. destruct H as [s [Hloop Hs]].
  destruct s as [t |]; simpl in Hs; [injection Hs as -> | discriminate].
  refine (for_each_invariant from_source _ _ None _ _ _ Hloop df eq_refl).
  - intros objs u u' Hobjs Hu Hrun.
    refine (for_each_invariant from_source _ _ _ _ _ Hu Hrun).
    intros d v v' Hd. apply sheet_archive_source. exists objs. auto.
  - intros t E. discriminate.
Qed.


Lemma sheet_member_unbound (zf : ZipFile) :
  (forall name, In name (Zip.namelist zf) -> PyStr.contains worksheet name = false) ->
  forall name df,
    In name (Zip.namelist zf) -> unbound df ->
    exists df', sheet_member read_csv worksheet zf df name = Ok df' /\ unbound df'.
Proof.
  intros Hnone name df Hname Hdf. unfold sheet_member.
  rewrite (Hnone name Hname). exists df. auto.
Qed.

Lemma sheet_archive_unbound (d : string) (df df' : option (Frame string)) :
  no_match fs dir_to_query worksheet -> is_selected d -> unbound df ->
  sheet_archive read_csv fs dir_to_query worksheet df d = Ok df' -> unbound df'.
Proof.
  intros Hno Hd Hdf H. unfold sheet_archive in H.
  apply bind_ok in H. destruct H as [zf [Hzf H]].
  destruct (for_each_total unbound (sheet_member read_csv worksheet zf)
              (Zip.namelist zf) df) as [s [Hs Hu]].
  - apply sheet_member_unbound. intros name Hname. apply (Hno d zf name Hd Hzf Hname).
  - exact Hdf.
  - congruence.
Qed.

Lemma sheet_archive_raises (d : string) (df : option (Frame string)) (e : PyError) :
  no_match fs dir_to_query worksheet -> is_selected d -> unbound df ->
  sheet_archive read_csv fs dir_to_query worksheet df d = Err e ->
  Zip.open_archive fs (OS.path_join dir_to_query d) = Err e.
Proof.
  intros Hno Hd Hdf H. unfold sheet_archive in H.
  apply bind_err in H. destruct H as [H | [zf [Hzf H]]]; [exact H |].
  destruct (for_each_total unbound (sheet_member read_csv worksheet zf)
              (Zip.namelist zf) df) as [s [Hs Hu]].
  - apply sheet_member_unbound. intros name Hname. apply (Hno d zf name Hd Hzf Hname).
  - exact Hdf.
  - congruence.
Qed.

End SheetLoader.



(** Nothing is selected in the empty year directory of [Fixture.fs_empty]. *)
Lemma empty_directory_no_match : no_match Fixture.fs_empty "data/2020/" "ma_1".
Proof.
  intros d zf name [objs [Hobjs Hd]] _ _.
  vm_compute in Hobjs. destruct Hobjs as [<- | []].
  vm_compute in Hd. contradiction.
Defined.

(** C3 as stated fails: nothing matches in the empty year directory of
    [Fixture.fs_empty], and the exception is [UnboundLocalError]. *)
Lemma no_match_counterexample :
  no_match Fixture.fs_empty "data/2020/" "ma_1" /\
  ~ raises (load_sheet Fixture.read_csv Fixture.fs_empty "data/2020/" "ma_1")
      "NoMatchFound".
Proof.
  split.
  - exact empty_directory_no_match.
  - intros [e [H Hn]]. vm_compute in H. injection H as <-. discriminate.
Qed.

(** C3, amended. When no archive is selected, or no member of a selected
    archive that opens has the worksheet tag in its name, the Sheet Loader
    returns no table: it ends with [UnboundLocalError] when every selected
    archive opens, and otherwise (some selected archive does not open) with
    the exception of a selected archive that does not open. *)
Theorem no_match_leaves_sheet_unbound
    (read_csv : CsvOptions -> string -> result (Frame string))
    (fs : FileSystem) (dir_to_query worksheet : string) :
  no_match fs dir_to_query worksheet ->
  exists e,
    load_sheet read_csv fs dir_to_query worksheet = Err e /\
    (e = UnboundLocalError \/
     exists d, selected fs dir_to_query worksheet d /\
               Zip.open_archive fs (OS.path_join dir_to_query d) = Err e) /\
    ((forall d, selected fs dir_to_query worksheet d ->
                exists zf, Zip.open_archive fs (OS.path_join dir_to_query d) = Ok zf) ->
     e = UnboundLocalError) /\
    ((exists d e', selected fs dir_to_query worksheet d /\
                   Zip.open_archive fs (OS.path_join dir_to_query d) = Err e') ->
     exists d, selected fs dir_to_query worksheet d /\
               Zip.open_archive fs (OS.path_join dir_to_query d) = Err e).
Proof.
  intros Hno. unfold load_sheet.
  set (inner := fun (df : option (Frame string)) (objs : list string) =>
                  for_each (sheet_archive read_csv fs dir_to_query worksheet)
                    (dir_of_interest dir_to_query worksheet objs) df).
  assert (forall objs t t',
            In objs (OS.walk fs dir_to_query) -> unbound t ->
            inner t objs = Ok t' -> unbound t') as Hkeep.
  { intros objs t t' Hobjs Ht Hrun. unfold inner in Hrun.
    refine (for_each_invariant unbound _ _ _ _ _ Ht Hrun).
    intros d v v' Hd.
    apply (sheet_archive_unbound read_csv fs dir_to_query worksheet d v v' Hno).
    exists objs. auto. }
  destruct (for_each inner (OS.walk fs dir_to_query) None) as [s | e] eqn:Eloop; simpl.
  - (* the loops ran to their end: every selected archive was opened *)
    assert (unbound s) as Hs
      by (apply (for_each_invariant unbound inner _ None s Hkeep eq_refl Eloop)).
    rewrite Hs. simpl. exists UnboundLocalError.
    split; [reflexivity |]. split; [left; reflexivity |]. split; [reflexivity |].
    intros [d [e' [[objs [Hobjs Hd]] Hfail]]]. exfalso.
    destruct (for_each_ran inner _ None s objs Eloop Hobjs) as [u [u' Hinner]].
    unfold inner in Hinner.
    destruct (for_each_ran _ _ u u' d Hinner Hd) as [v [v' Harch]].
    unfold sheet_archive in Harch.
    apply bind_ok in Harch. destruct Harch as [zf [Hzf _]]. congruence.
  - (* an iteration raised: it was the opening of a selected archive *)
    exists e. split; [reflexivity |].
    destruct (for_each_raises unbound inner _ None e Hkeep eq_refl Eloop)
      as [objs [t [Hobjs [Ht Hrun]]]].
    unfold inner in Hrun.
    destruct (for_each_raises unbound
                (sheet_archive read_csv fs dir_to_query worksheet)
                (dir_of_interest dir_to_query worksheet objs) t e) as [d [u [Hd [Hu He]]]].
    + intros d v v' Hd.
      apply (sheet_archive_unbound read_csv fs dir_to_query worksheet d v v' Hno).
      exists objs. auto.
    + exact Ht.
    + exact Hrun.
    + assert (selected fs dir_to_query worksheet d) as Hsel by (exists objs; auto).
      pose proof (sheet_archive_raises read_csv fs dir_to_query worksheet d u e
                    Hno Hsel Hu He) as Hopen.
      split; [right; exists d; auto |].
      split.
      * intros Hall. destruct (Hall d Hsel) as [zf Hzf]. congruence.
      * intros _. exists d. auto.
Qed.

(** Nothing matches in [Fixture.fs_not_zip] either, where the one selected
    file is no archive. *)
Lemma not_zip_no_match : no_match Fixture.fs_not_zip "data/2020/" "ma_1".
Proof.
  intros d zf name [objs [Hobjs Hd]] Hzf _.
  vm_compute in Hobjs. destruct Hobjs as [<- | []].
  vm_compute in Hd. destruct Hd as [<- | []].
  vm_compute in Hzf. discriminate.
Defined.

(** The selected file of [Fixture.fs_not_zip] does not open: the load ends
    with the exception of opening it, [BadZipFile]. In the empty year
    directory of [Fixture.fs_empty] every selected archive opens, there
    being none: the load ends with [UnboundLocalError]. *)
Lemma no_match_leaves_sheet_unbound_witness :
  (exists d,
     selected Fixture.fs_not_zip "data/2020/" "ma_1" d /\
     Zip.open_archive Fixture.fs_not_zip (OS.path_join "data/2020/" d)
     = Err BadZipFile /\
     load_sheet Fixture.read_csv Fixture.fs_not_zip "data/2020/" "ma_1"
     = Err BadZipFile) /\
  load_sheet Fixture.read_csv Fixture.fs_empty "data/2020/" "ma_1"
  = Err UnboundLocalError.
Proof.
  split.
  - destruct (no_match_leaves_sheet_unbound
                Fixture.read_csv Fixture.fs_not_zip "data/2020/" "ma_1"
                not_zip_no_match) as [e [He [_ [_ Hfail]]]].
    destruct Hfail as [d [Hd Hopen]].
    + exists "bpt_ma_1.zip", BadZipFile. split; [| reflexivity].
      eexists. split; [left; reflexivity |]. vm_compute. left. reflexivity.
    + exists d. split; [exact Hd |].
      assert (e = BadZipFile) as ->; [| auto].
      vm_compute in He. congruence.
  - destruct (no_match_leaves_sheet_unbound
                Fixture.read_csv Fixture.fs_empty "data/2020/" "ma_1"
                empty_directory_no_match) as [e [He [_ [Hall _]]]].
    rewrite He. f_equal. apply Hall.
    intros d [objs [Hobjs Hd]].
    vm_compute in Hobjs. destruct Hobjs as [<- | []].
    vm_compute in Hd. contradiction.
Defined.

(** * Further properties of the loaders *)

(** ** Substrings and segments *)

Lemma startswith_spec (p s : string) :
  PyStr.startswith p s = true <-> exists b, s = (p ++ b)%string.
Proof.
  revert s. induction p as [| a p IH]; intros s; simpl.
  - split; [intros _; exists s; reflexivity | reflexivity].
  - destruct s as [| c s].
    + split; [discriminate | intros [b H]; discriminate].
    + destruct (Ascii.eqb_spec a c) as [-> | Hne].
      * rewrite IH. split; intros [b H]; exists b; congruence.
      * split; [discriminate | intros [b H]; congruence].
Qed.

(** [p in s] holds exactly when [s] is [a ++ p ++ b] for some [a], [b]. *)
Lemma contains_spec (p s : string) :
  PyStr.contains p s = true <-> exists a b, s = (a ++ p ++ b)%string.
Proof.
  induction s as [| c s IH]; simpl.
  - rewrite orb_false_r, startswith_spec. split.
    + intros [b H]. exists "", b. exact H.
    + intros [[| x a] [b H]]; [exists b; exact H | discriminate].
  - rewrite orb_true_iff, startswith_spec, IH. split.
    + intros [[b H] | [a [b H]]].
      * exists "", b. exact H.
      * exists (String c a), b. simpl. congruence.
    + intros [[| x a] [b H]].
      * left. exists b. exact H.
      * right. exists a, b. simpl in H. congruence.
Qed.

Lemma split_segments_lack (c : ascii) (s : string) :
  Forall (fun seg => PyStr.lacks c seg = true) (PyStr.split c s).
Proof.
  induction s as [| a s IH]; simpl.
  - constructor; [reflexivity | constructor].
  - destruct (Ascii.eqb a c) eqn:E.
    + constructor; [reflexivity | exact IH].
    + destruct (PyStr.split c s) as [| seg segs]; simpl.
      * constructor; [simpl; rewrite E; reflexivity | constructor].
      * inversion IH as [| ? ? Hseg Hsegs]; subst.
        constructor; [simpl; rewrite E, Hseg; reflexivity | exact Hsegs].
Qed.

(** Joining the segments with the separator gives the string back. *)
Lemma split_concat (c : ascii) (s : string) :
  String.concat (String c "") (PyStr.split c s) = s.
Proof.
  induction s as [| a s IH]; simpl; [reflexivity |].
  destruct (Ascii.eqb_spec a c) as [-> | Hne].
  - destruct (PyStr.split c s) as [| seg segs] eqn:E.
    + exfalso. exact (split_not_nil c s E).
    + change (String.concat (String c "") ("" :: seg :: segs))
        with ("" ++ String c "" ++ String.concat (String c "") (seg :: segs))%string.
      rewrite IH. reflexivity.
  - destruct (PyStr.split c s) as [| seg segs] eqn:E.
    + exfalso. exact (split_not_nil c s E).
    + destruct segs as [| seg' segs]; simpl in *; congruence.
Qed.

Lemma append_assoc (a b c : string) :
  ((a ++ b) ++ c)%string = (a ++ b ++ c)%string.
Proof.
  induction a as [| x a IH]; simpl; [reflexivity | rewrite IH; reflexivity].
Qed.

Lemma concat_app (sep : string) (l1 l2 : list string) :
  l1 <> [] -> l2 <> [] ->
  String.concat sep (l1 ++ l2)
  = (String.concat sep l1 ++ sep ++ String.concat sep l2)%string.
Proof.
  intros H1 H2. induction l1 as [| x l1 IH]; [contradiction |].
  destruct l1 as [| y l1].
  - simpl. destruct l2; [contradiction | reflexivity].
  - change (String.concat sep ((x :: y :: l1) ++ l2))
      with (x ++ sep ++ String.concat sep ((y :: l1) ++ l2))%string.
    rewrite IH by discriminate.
    change (String.concat sep (x :: y :: l1))
      with (x ++ sep ++ String.concat sep (y :: l1))%string.
    rewrite !append_assoc. reflexivity.
Qed.

(** ** The year label *)

(** A path without a slash has a single segment: the constructor ends
    with [IndexError] before any file is looked at. *)
Theorem path_without_slash_has_no_label
    (read_csv : CsvOptions -> string -> result (Frame string))
    (fs : FileSystem) (yeardir : string) :
  PyStr.lacks "/" yeardir = true ->
  BPT_init read_csv fs yeardir = Err IndexError.
Proof.
  intros H. unfold BPT_init.
  rewrite (split_without_separator _ _ H). reflexivity.
Qed.

Lemma path_without_slash_has_no_label_witness :
  BPT_init Fixture.read_csv Fixture.fs2020 "2020" = Err IndexError.
Proof.
  apply (path_without_slash_has_no_label Fixture.read_csv Fixture.fs2020 "2020").
  reflexivity.
Defined.

(** The path of a Bundle reads [before ++ year ++ "/" ++ final]: the label
    and what follows it hold no slash, and what precedes the label is empty
    or ends with a slash. *)
Theorem year_label_sits_before_the_last_slash
    (read_csv : CsvOptions -> string -> result (Frame string))
    (fs : FileSystem) (yeardir : string) (b : BPT) :
  BPT_init read_csv fs yeardir = Ok b ->
  exists before final,
    yeardir = (before ++ year b ++ "/" ++ final)%string /\
    PyStr.lacks "/" (year b) = true /\
    PyStr.lacks "/" final = true /\
    (before = "" \/ PyStr.endswith "/" before = true).
Proof.
  intros H. apply BPT_init_ok in H. destruct H as [Hy _].
  apply second_to_last_inv in Hy. destruct Hy as [front [final E]].
  pose proof (split_segments_lack "/" yeardir) as Hlack.
  rewrite E in Hlack. apply Forall_app in Hlack. destruct Hlack as [_ Hlack].
  inversion Hlack as [| ? ? Hyear Hrest]; subst.
  inversion Hrest as [| ? ? Hfinal _]; subst.
  pose proof (split_concat "/" yeardir) as Hjoin. rewrite E in Hjoin.
  destruct front as [| f front].
  - exists "", final. simpl in Hjoin. auto.
  - rewrite concat_app in Hjoin by discriminate.
    remember (String.concat "/" (f :: front)) as dirs eqn:Edirs. clear Edirs.
    exists (dirs ++ "/")%string, final.
    split; [| split; [exact Hyear | split; [exact Hfinal |]]].
    + rewrite append_assoc. symmetry. exact Hjoin.
    + right. clear. induction dirs as [| a s IH]; simpl.
      * reflexivity.
      * rewrite IH. apply orb_true_r.
Qed.

Lemma year_label_sits_before_the_last_slash_witness :
  exists b before final,
    BPT_init Fixture.read_csv Fixture.fs2020 "data/2020/" = Ok b /\
    "data/2020/" = (before ++ year b ++ "/" ++ final)%string /\
    PyStr.lacks "/" (year b) = true.
Proof.
  destruct (BPT_init Fixture.read_csv Fixture.fs2020 "data/2020/") as [b | e] eqn:E.
  - destruct (year_label_sits_before_the_last_slash
                Fixture.read_csv Fixture.fs2020 "data/2020/" b E)
      as [before [final [H1 [H2 _]]]].
    exists b, before, final. auto.
  - vm_compute in E. discriminate.
Defined.

(** ** The selection rules *)

(** The legacy rule looks for [2014] or [2015] anywhere in the path, and
    the archives kept are the listed files in whose name the marker ([_ma]
    under the legacy rule, the worksheet tag otherwise) occurs. *)
Theorem selection_is_by_occurrence (dir_to_query worksheet : string)
    (objs : list string) :
  (is_exception_year dir_to_query = true <->
   exists a b, dir_to_query = (a ++ "2014" ++ b)%string \/
               dir_to_query = (a ++ "2015" ++ b)%string) /\
  (forall d,
     In d (dir_of_interest dir_to_query worksheet objs) <->
     In d objs /\
     exists a b,
       d = (a ++ (if is_exception_year dir_to_query then "_ma" else worksheet) ++ b)%string).
Proof.
  split.
  - unfold is_exception_year, years_for_exception. simpl.
    rewrite orb_false_r, orb_true_iff, !contains_spec. split.
    + intros [[a [b H]] | [a [b H]]]; exists a, b; auto.
    + intros [a [b [H | H]]]; [left | right]; exists a, b; exact H.
  - intros d. unfold dir_of_interest.
    destruct (is_exception_year dir_to_query);
      rewrite filter_In, contains_spec; reflexivity.
Qed.

(** ** Paths of listed files *)

Lemma endswith_spec (p s : string) :
  PyStr.endswith p s = true <-> exists a, s = (a ++ p)%string.
Proof.
  induction s as [| c s IH]; simpl.
  - rewrite orb_false_r. split.
    + intros H. apply String.eqb_eq in H. exists "". symmetry. exact H.
    + intros [[| x a] H]; [apply String.eqb_eq; symmetry; exact H | discriminate].
  - rewrite orb_true_iff, IH. split.
    + intros [H | [a H]].
      * apply String.eqb_eq in H. exists "". symmetry. exact H.
      * exists (String c a). simpl. congruence.
    + intros [[| x a] H].
      * left. apply String.eqb_eq. symmetry. exact H.
      * right. exists a. simpl in H. congruence.
Qed.

Lemma endswith_append (p a s : string) :
  PyStr.endswith p s = true -> PyStr.endswith p (a ++ s) = true.
Proof.
  rewrite !endswith_spec. intros [b ->]. exists (a ++ b)%string.
  symmetry. apply append_assoc.
Qed.

Lemma descend_app (a b : list string) :
  forall n : Node,
    OS.descend (a ++ b) n
    = match OS.descend a n with
      | Some m => OS.descend b m
      | None => None
      end.
Proof.
  induction a as [| seg a IH]; intros n; simpl; [reflexivity |].
  destruct n as [name data | name entries]; [reflexivity |].
  destruct (String.eqb seg "" || String.eqb seg "."); [apply IH |].
  destruct (OS.find_entry seg entries); [apply IH | reflexivity].
Qed.

Lemma startswith_slash (file : string) :
  PyStr.lacks "/" file = true -> PyStr.startswith "/" file = false.
Proof.
  destruct file as [| c file]; [reflexivity |].
  cbn [PyStr.lacks PyStr.startswith].
  intros H. apply andb_true_iff in H. destruct H as [H _].
  apply negb_true_iff in H.
  destruct (Ascii.eqb_spec "/" c) as [<- | _]; [| reflexivity].
  rewrite Ascii.eqb_refl in H. discriminate.
Qed.

Lemma path_join_endswith (p dir file : string) :
  PyStr.lacks "/" file = true ->
  PyStr.endswith p file = true -> PyStr.endswith p (OS.path_join dir file) = true.
Proof.
  intros Hfile Hp. unfold OS.path_join. rewrite (startswith_slash _ Hfile).
  destruct (String.eqb dir "" || PyStr.endswith "/" dir).
  - apply endswith_append. exact Hp.
  - apply endswith_append. apply (endswith_append p "/"). exact Hp.
Qed.

(** In an existing directory, [os.path.join(dir, file)] leads to the entry
    named [file], with or without a final slash on [dir]. *)
Lemma resolve_join (fs : FileSystem) (dir nm file : string) (entries : list Node) :
  OS.resolve fs dir = Some (Dir nm entries) ->
  file_name_ok file ->
  OS.resolve fs (OS.path_join dir file) = OS.find_entry file entries.
Proof.
  unfold OS.resolve. intros Hdir [Hne [Hdot Hlack]].
  destruct (String.eqb_spec dir "") as [-> | Hd]; [discriminate |].
  assert (OS.descend [file] (Dir nm entries) = OS.find_entry file entries) as Hlast.
  { simpl.
    destruct (String.eqb_spec file "") as [E | _]; [contradiction |].
    destruct (String.eqb_spec file ".") as [E | _]; [contradiction |].
    simpl. destruct (OS.find_entry file entries); reflexivity. }
  assert (forall a b : string, String.eqb (a ++ String "/" b) "" = false) as Hfull.
  { intros a b. destruct a; reflexivity. }
  unfold OS.path_join. rewrite (startswith_slash _ Hlack).
  destruct (PyStr.endswith "/" dir) eqn:Eslash.
  - rewrite orb_true_r.
    apply endswith_spec in Eslash. destruct Eslash as [d ->].
    change (d ++ "/")%string with (d ++ String "/" "")%string in Hdir.
    rewrite split_at_separator, descend_app in Hdir. simpl in Hdir.
    destruct (OS.descend (PyStr.split "/" d) (Dir "" fs)) as [m |] eqn:Em;
      [| discriminate].
    destruct m as [? ? | nm' entries']; [discriminate |].
    injection Hdir as -> ->.
    rewrite append_assoc.
    change ("/" ++ file)%string with (String "/" file).
    rewrite Hfull, split_at_separator, descend_app, Em.
    rewrite (split_without_separator _ _ Hlack). exact Hlast.
  - rewrite orb_false_r.
    destruct (String.eqb_spec dir "") as [E | _]; [contradiction |].
    change (dir ++ "/" ++ file)%string with (dir ++ String "/" file)%string.
    rewrite Hfull, split_at_separator, descend_app, Hdir.
    rewrite (split_without_separator _ _ Hlack). exact Hlast.
Qed.

(** A directory without subdirectories is walked in one step. *)
Lemma walk_flat (nm : string) (entries : list Node) :
  (forall n, In n entries -> is_dir n = false) ->
  OS.walk_node (Dir nm entries) = [map node_name entries].
Proof.
  intros Hflat. simpl. f_equal.
  - unfold OS.file_names. f_equal.
    induction entries as [| n entries IH]; simpl; [reflexivity |].
    rewrite (Hflat n (or_introl eq_refl)). simpl. f_equal.
    apply IH. intros m Hm. apply Hflat. right. exact Hm.
  - induction entries as [| n entries IH]; [reflexivity |].
    pose proof (Hflat n (or_introl eq_refl)) as Hn.
    destruct n as [? ? | ? ?]; [| discriminate].
    simpl. apply IH. intros m Hm. apply Hflat. right. exact Hm.
Qed.

(** ** Loops over a list in two parts *)

Lemma for_each_app {S A : Type} (body : S -> A -> result S) (xs ys : list A) (s : S) :
  for_each body (xs ++ ys) s = (t <- for_each body xs s ;; for_each body ys t).
Proof.
  revert s. induction xs as [| x xs IH]; intros s; simpl; [reflexivity |].
  destruct (body s x) as [t | e]; simpl; [apply IH | reflexivity].
Qed.

(** Iterations that leave the state alone. *)
Lemma for_each_skip {S A : Type} (body : S -> A -> result S) (xs : list A) (s : S) :
  (forall x, In x xs -> body s x = Ok s) -> for_each body xs s = Ok s.
Proof.
  induction xs as [| x xs IH]; simpl; intros H; [reflexivity |].
  rewrite (H x (or_introl eq_refl)). simpl.
  apply IH. intros y Hy. apply H. right. exact Hy.
Qed.

(** ** The Dictionary Loader *)

Section DictionaryLoader.

Variable read_csv : CsvOptions -> string -> result (Frame string).
Variable fs : FileSystem.
Variable dir_to_query : string.

Local Abbreviation is_archive := (dictionary_archive fs dir_to_query).
Local Abbreviation from_dictionary :=
  (dict_from_source read_csv fs dir_to_query).

Lemma dict_member_source (file : string) (zf : ZipFile) :
  is_archive file ->
  Zip.open_archive fs (OS.path_join dir_to_query file) = Ok zf ->
  forall name s s',
    In name (Zip.namelist zf) -> from_dictionary s ->
    dict_member read_csv zf s name = Ok s' ->
    from_dictionary s'.
Proof.
  intros Hfile Hzf name s s' Hname Hs. unfold dict_member.
  destruct (PyStr.endswith ".csv" name) eqn:Ecsv.
  - intros H. apply bind_ok in H. destruct H as [bytes [Hb H]].
    apply bind_ok in H. destruct H as [t [Ht H]]. injection H as <-.
    intros t' Et. injection Et as <-.
    exists file, zf, name, bytes. auto 10.
  - intros H. injection H as <-. exact Hs.
Qed.

Lemma dict_file_source (files : list string) (file : string)
    (s s' : option (Frame string)) :
  In files (OS.walk fs dir_to_query) -> In file files -> from_dictionary s ->
  dict_file read_csv fs dir_to_query s file = Ok s' ->
  from_dictionary s'.
Proof.
  intros Hfiles Hfile Hs. unfold dict_file.
  destruct (PyStr.contains "dictionary" file) eqn:Ed;
    [| intros H; injection H as <-; exact Hs].
  destruct (PyStr.endswith ".zip" (OS.path_join dir_to_query file)) eqn:Ez;
    [| intros H; injection H as <-; exact Hs].
  intros H. apply bind_ok in H. destruct H as [zf [Hzf H]].
  refine (for_each_invariant from_dictionary _ _ _ _
            (dict_member_source file zf _ Hzf) Hs H).
  exists files. auto.
Qed.

(** The table the Dictionary Loader returns is parsed, with the default
    options, from a [.csv] member of a listed file that has [dictionary] in
    its name and [.zip] at its end, opened at the year directory. *)
Theorem dictionary_comes_from_a_dictionary_archive (t : Frame string) :
  load_data_dict read_csv fs dir_to_query = Ok t ->
  OS.path_exists fs dir_to_query = true /\
  dictionary_source read_csv fs dir_to_query t.
Proof.
  unfold load_data_dict.
  destruct (OS.path_exists fs dir_to_query); simpl; [| discriminate].
  intros H. apply bind_ok in H. destruct H as [s [Hloop Hs]].
  destruct s as [t' |]; simpl in Hs; [injection Hs as -> | discriminate].
  split; [reflexivity |].
  refine (for_each_invariant from_dictionary _ _ None _ _ _ Hloop t eq_refl).
  - intros files u u' Hfiles Hu Hrun.
    refine (for_each_invariant from_dictionary _ _ _ _ _ Hu Hrun).
    intros file v v' Hfile. apply (dict_file_source files); assumption.
  - intros t' E. discriminate.
Qed.

Lemma load_data_dict_opened (t : Frame string) (file : string) :
  load_data_dict read_csv fs dir_to_query = Ok t ->
  is_archive file ->
  exists zf, Zip.open_archive fs (OS.path_join dir_to_query file) = Ok zf.
Proof.
  unfold load_data_dict.
  destruct (OS.path_exists fs dir_to_query); simpl; [| discriminate].
  intros H [files [Hfiles [Hfile [Hd Hz]]]].
  apply bind_ok in H. destruct H as [s [Hloop _]].
  destruct (for_each_ran _ _ _ _ files Hloop Hfiles) as [u [u' Hinner]].
  destruct (for_each_ran _ _ _ _ file Hinner Hfile) as [v [v' Hrun]].
  unfold dict_file in Hrun. rewrite Hd, Hz in Hrun.
  apply bind_ok in Hrun. destruct Hrun as [zf [Hzf _]].
  exists zf. exact Hzf.
Qed.

(** When the Dictionary Loader returns, it has opened every listed
    dictionary archive at the year directory and parsed every [.csv] member
    of each: none is passed over, also not one whose table is replaced by a
    later one. *)
Theorem dictionary_loader_reads_every_archive (t : Frame string) (file : string) :
  load_data_dict read_csv fs dir_to_query = Ok t ->
  dictionary_archive fs dir_to_query file ->
  exists zf,
    Zip.open_archive fs (OS.path_join dir_to_query file) = Ok zf /\
    forall name,
      In name (Zip.namelist zf) -> PyStr.endswith ".csv" name = true ->
      exists bytes t',
        Zip.open_member zf name = Ok bytes /\ read_csv csv_defaults bytes = Ok t'.
Proof.
  unfold load_data_dict.
  destruct (OS.path_exists fs dir_to_query); simpl; [| discriminate].
  intros H [files [Hfiles [Hfile [Hd Hz]]]].
  apply bind_ok in H. destruct H as [s [Hloop _]].
  destruct (for_each_ran _ _ _ _ files Hloop Hfiles) as [u [u' Hinner]].
  destruct (for_each_ran _ _ _ _ file Hinner Hfile) as [v [v' Hrun]].
  unfold dict_file in Hrun. rewrite Hd, Hz in Hrun.
  apply bind_ok in Hrun. destruct Hrun as [zf [Hzf Hmembers]].
  exists zf. split; [exact Hzf |].
  intros name Hname Hcsv.
  destruct (for_each_ran _ _ _ _ name Hmembers Hname) as [w [w' Hm]].
  unfold dict_member in Hm. rewrite Hcsv in Hm.
  apply bind_ok in Hm. destruct Hm as [bytes [Hb Hm]].
  apply bind_ok in Hm. destruct Hm as [t' [Ht _]].
  exists bytes, t'. auto.
Qed.

(** A dictionary archive the walk lists below the year directory, with no
    entry of its name in the year directory itself, makes the Dictionary
    Loader fail: the file is looked up in the year directory. *)
Theorem dictionary_below_the_year_directory_fails
    (nm file : string) (entries : list Node) :
  OS.resolve fs dir_to_query = Some (Dir nm entries) ->
  file_name_ok file ->
  dictionary_archive fs dir_to_query file ->
  OS.find_entry file entries = None ->
  exists e, load_data_dict read_csv fs dir_to_query = Err e.
Proof.
  intros Hdir Hname Harch Hnone.
  destruct (load_data_dict read_csv fs dir_to_query) as [t | e] eqn:E;
    [| exists e; reflexivity].
  exfalso.
  destruct (load_data_dict_opened t file E Harch) as [zf Hzf].
  unfold Zip.open_archive in Hzf.
  rewrite (resolve_join fs dir_to_query nm file entries Hdir Hname), Hnone in Hzf.
  discriminate.
Qed.

(** In an existing directory where the walk lists no dictionary archive,
    [data_dict] is never assigned and the Dictionary Loader ends with
    [UnboundLocalError]. *)
Theorem no_dictionary_archive_leaves_dictionary_unbound :
  OS.path_exists fs dir_to_query = true ->
  (forall file, ~ dictionary_archive fs dir_to_query file) ->
  load_data_dict read_csv fs dir_to_query = Err UnboundLocalError.
Proof.
  intros Hexists Hnone. unfold load_data_dict. rewrite Hexists. simpl.
  assert (forall files s,
            In files (OS.walk fs dir_to_query) ->
            for_each (dict_file read_csv fs dir_to_query) files s = Ok s) as Hskip.
  { intros files s Hfiles. apply for_each_skip. intros file Hfile.
    unfold dict_file.
    destruct (PyStr.contains "dictionary" file) eqn:Ed; [| reflexivity].
    destruct (PyStr.endswith ".zip" (OS.path_join dir_to_query file)) eqn:Ez;
      [| reflexivity].
    exfalso. apply (Hnone file). exists files. auto. }
  rewrite for_each_skip; [reflexivity |].
  intros files Hfiles. apply Hskip. exact Hfiles.
Qed.

End DictionaryLoader.

Lemma dictionary_comes_from_a_dictionary_archive_witness :
  exists t,
    load_data_dict Fixture.read_csv Fixture.fs2020 "data/2020/" = Ok t /\
    dictionary_source Fixture.read_csv Fixture.fs2020 "data/2020/" t.
Proof.
  destruct (load_data_dict Fixture.read_csv Fixture.fs2020 "data/2020/")
    as [t | e] eqn:E; [| vm_compute in E; discriminate].
  exists t. split; [reflexivity |].
  apply (dictionary_comes_from_a_dictionary_archive
           Fixture.read_csv Fixture.fs2020 "data/2020/" t E).
Defined.

Lemma fs2020_dictionary_archive :
  dictionary_archive Fixture.fs2020 "data/2020/" "dictionary.zip".
Proof.
  eexists. split; [left; reflexivity |].
  split; [left; reflexivity |]. split; reflexivity.
Defined.

Lemma dictionary_loader_reads_every_archive_witness :
  exists zf,
    Zip.open_archive Fixture.fs2020 (OS.path_join "data/2020/" "dictionary.zip") = Ok zf /\
    forall name,
      In name (Zip.namelist zf) -> PyStr.endswith ".csv" name = true ->
      exists bytes t',
        Zip.open_member zf name = Ok bytes /\
        Fixture.read_csv csv_defaults bytes = Ok t'.
Proof.
  destruct (load_data_dict Fixture.read_csv Fixture.fs2020 "data/2020/")
    as [t | e] eqn:E; [| vm_compute in E; discriminate].
  apply (dictionary_loader_reads_every_archive
           Fixture.read_csv Fixture.fs2020 "data/2020/" t "dictionary.zip" E).
  exact fs2020_dictionary_archive.
Defined.

Lemma dictionary_below_the_year_directory_fails_witness :
  exists e, load_data_dict Fixture.read_csv Fixture.fs_nested "data/2020/" = Err e.
Proof.
  apply (dictionary_below_the_year_directory_fails
           Fixture.read_csv Fixture.fs_nested "data/2020/" "2020" "dictionary.zip"
           [Dir "docs" [File "dictionary.zip"
                          (ZipData [("dictionary.csv", Fixture.dictionary_csv)])]]).
  - reflexivity.
  - repeat split; discriminate.
  - eexists. split; [right; left; reflexivity |].
    split; [left; reflexivity |]. split; reflexivity.
  - reflexivity.
Defined.

Lemma no_dictionary_archive_leaves_dictionary_unbound_witness :
  load_data_dict Fixture.read_csv Fixture.fs_nokey "data/2020/" = Err UnboundLocalError.
Proof.
  apply (no_dictionary_archive_leaves_dictionary_unbound
           Fixture.read_csv Fixture.fs_nokey "data/2020/").
  - reflexivity.
  - intros file [files [Hfiles [Hfile [Hd _]]]].
    vm_compute in Hfiles. destruct Hfiles as [<- | []].
    destruct Hfile as [<- | []]. vm_compute in Hd. discriminate.
Defined.

(** A year directory without subdirectories that holds one dictionary
    archive, with one [.csv] member the reader can parse: the Dictionary
    Loader returns the table of that member, whatever else the directory
    and the archive hold. *)
Theorem single_dictionary_archive_is_loaded
    (read_csv : CsvOptions -> string -> result (Frame string))
    (fs : FileSystem) (dir_to_query nm file member bytes : string)
    (before after : list Node) (mbefore mafter : list (string * string))
    (t : Frame string) :
  OS.resolve fs dir_to_query
    = Some (Dir nm (before ++
                    File file (ZipData (mbefore ++ (member, bytes) :: mafter)) :: after)) ->
  (forall n, In n (before ++ after) ->
     is_dir n = false /\ PyStr.contains "dictionary" (node_name n) = false) ->
  PyStr.contains "dictionary" file = true ->
  PyStr.endswith ".zip" file = true ->
  PyStr.lacks "/" file = true ->
  (forall m, In m (mbefore ++ mafter) -> PyStr.endswith ".csv" (fst m) = false) ->
  PyStr.endswith ".csv" member = true ->
  read_csv csv_defaults bytes = Ok t ->
  load_data_dict read_csv fs dir_to_query = Ok t.
Proof.
  intros Hdir Hothers Hd Hz Hlack Hm Hcsv Hparse.
  set (zf := mbefore ++ (member, bytes) :: mafter) in *.
  set (entries := before ++ File file (ZipData zf) :: after) in *.
  assert (file_name_ok file) as Hname.
  { repeat split; [| | exact Hlack]; intros ->; discriminate. }
  assert (forall n, In n before \/ In n after ->
            is_dir n = false /\ PyStr.contains "dictionary" (node_name n) = false)
    as Hothers'.
  { intros n Hn. apply Hothers. apply in_or_app. exact Hn. }
  (* the archive is found at the joined path *)
  assert (Zip.open_archive fs (OS.path_join dir_to_query file) = Ok zf) as Hopen.
  { unfold Zip.open_archive.
    rewrite (resolve_join fs dir_to_query nm file entries Hdir Hname).
    assert (OS.find_entry file entries = Some (File file (ZipData zf))) as ->;
      [| reflexivity].
    unfold entries. clear Hdir. induction before as [| n before IH]; simpl.
    - rewrite String.eqb_refl. reflexivity.
    - destruct (String.eqb_spec (node_name n) file) as [E | _].
      + destruct (Hothers' n (or_introl (or_introl eq_refl))) as [_ Hn].
        rewrite E, Hd in Hn. discriminate.
      + apply IH.
        * intros m Hin. apply Hothers. simpl. right. exact Hin.
        * intros m [Hin | Hin]; apply Hothers'; [left; right |right]; exact Hin. }
  (* the member loop binds the table of the one [.csv] member *)
  assert (forall s, for_each (dict_member read_csv zf) (Zip.namelist zf) s = Ok (Some t))
    as Hmembers.
  { intros s. unfold zf, Zip.namelist. rewrite map_app, for_each_app.
    rewrite for_each_skip.
    - simpl. unfold dict_member at 1. rewrite Hcsv.
      assert (Zip.open_member (mbefore ++ (member, bytes) :: mafter) member = Ok bytes)
        as ->.
      { clear - Hm Hcsv.
        assert (forall l, (forall m, In m l -> PyStr.endswith ".csv" (fst m) = false) ->
                          Zip.open_member l member = Err KeyError) as Habsent.
        { induction l as [| [n b] l IH]; simpl; intros H; [reflexivity |].
          rewrite IH by (intros m Hin; apply H; right; exact Hin).
          destruct (String.eqb_spec n member) as [-> | _]; [| reflexivity].
          specialize (H (member, b) (or_introl eq_refl)). simpl in H. congruence. }
        induction mbefore as [| [n b] l IH]; simpl.
        - rewrite Habsent by (intros m Hin; apply Hm; exact Hin).
          rewrite String.eqb_refl. reflexivity.
        - rewrite IH; [reflexivity |].
          intros m Hin. apply Hm. simpl. right. exact Hin. }
      simpl. rewrite Hparse. simpl.
      apply for_each_skip. intros name Hin. unfold dict_member.
      apply in_map_iff in Hin. destruct Hin as [m [<- Hin]].
      rewrite (Hm m) by (apply in_or_app; right; exact Hin). reflexivity.
    - intros name Hin. unfold dict_member.
      apply in_map_iff in Hin. destruct Hin as [m [<- Hin]].
      rewrite (Hm m) by (apply in_or_app; left; exact Hin). reflexivity. }
  (* the file loop *)
  assert (forall n s, In n before \/ In n after ->
            dict_file read_csv fs dir_to_query s (node_name n) = Ok s) as Hskip.
  { intros n s Hn. unfold dict_file.
    rewrite (proj2 (Hothers' n Hn)). reflexivity. }
  unfold load_data_dict, OS.path_exists, OS.walk. rewrite Hdir. simpl negb. cbv iota.
  rewrite walk_flat.
  2:{ intros n Hin. unfold entries in Hin. apply in_app_or in Hin.
      destruct Hin as [Hin | [<- | Hin]]; [| reflexivity |];
        apply Hothers'; auto. }
  cbn [for_each bind]. unfold entries. rewrite map_app, for_each_app.
  rewrite for_each_skip.
  2:{ intros name Hin. apply in_map_iff in Hin. destruct Hin as [n [<- Hin]].
      apply Hskip. left. exact Hin. }
  cbn [bind map for_each node_name].
  unfold dict_file at 1. rewrite Hd, (path_join_endswith _ _ _ Hlack Hz), Hopen.
  cbn [bind]. rewrite Hmembers. cbn [bind].
  rewrite for_each_skip.
  - reflexivity.
  - intros name Hin. apply in_map_iff in Hin. destruct Hin as [n [<- Hin]].
    apply Hskip. right. exact Hin.
Qed.

Lemma single_dictionary_archive_is_loaded_witness :
  load_data_dict Fixture.read_csv Fixture.fs_nokey_with_dictionary "data/2020"
  = Ok Fixture.dict_two_rows.
Proof.
  apply (single_dictionary_archive_is_loaded
           Fixture.read_csv Fixture.fs_nokey_with_dictionary "data/2020" "2020"
           "dictionary.zip" "dictionary.csv" Fixture.dictionary_csv
           [File "notes.txt" (OtherData "x")] [] [("readme.md", "x")] []
           Fixture.dict_two_rows).
  - reflexivity.
  - intros n [<- | []]. split; reflexivity.
  - reflexivity.
  - reflexivity.
  - reflexivity.
  - intros m [<- | []]. reflexivity.
  - reflexivity.
  - reflexivity.
Defined.

(** ** The Sheet Loader, further *)

(** Outside the legacy years the table the Sheet Loader returns is parsed
    from a member with the worksheet tag in its name, inside a listed file
    with the worksheet tag in its name. *)
Theorem worksheet_comes_from_its_own_archive
    (read_csv : CsvOptions -> string -> result (Frame string))
    (fs : FileSystem) (dir_to_query worksheet : string) (df : Frame string) :
  is_exception_year dir_to_query = false ->
  load_sheet read_csv fs dir_to_query worksheet = Ok df ->
  exists objs d zf name bytes,
    In objs (OS.walk fs dir_to_query) /\ In d objs /\
    PyStr.contains worksheet d = true /\
    Zip.open_archive fs (OS.path_join dir_to_query d) = Ok zf /\
    In name (Zip.namelist zf) /\
    PyStr.contains worksheet name = true /\
    Zip.open_member zf name = Ok bytes /\
    read_csv tab_cp1252 bytes = Ok df.
Proof.
  intros Hyear Hload.
  destruct (load_sheet_source read_csv fs dir_to_query worksheet df Hload)
    as [d [zf [name [bytes [[objs [Hobjs Hd]] H]]]]].
  unfold dir_of_interest in Hd. rewrite Hyear in Hd.
  apply filter_In in Hd. destruct Hd as [Hd Hws].
  exists objs, d, zf, name, bytes. tauto.
Qed.

Lemma worksheet_comes_from_its_own_archive_witness :
  exists df objs d zf name bytes,
    load_sheet Fixture.read_csv Fixture.fs2020 "data/2020/" "ma_3" = Ok df /\
    In objs (OS.walk Fixture.fs2020 "data/2020/") /\ In d objs /\
    PyStr.contains "ma_3" d = true /\
    Zip.open_archive Fixture.fs2020 (OS.path_join "data/2020/" d) = Ok zf /\
    In name (Zip.namelist zf) /\
    PyStr.contains "ma_3" name = true /\
    Zip.open_member zf name = Ok bytes /\
    Fixture.read_csv tab_cp1252 bytes = Ok df.
Proof.
  destruct (load_sheet Fixture.read_csv Fixture.fs2020 "data/2020/" "ma_3")
    as [df | e] eqn:E; [| vm_compute in E; discriminate].
  destruct (worksheet_comes_from_its_own_archive
              Fixture.read_csv Fixture.fs2020 "data/2020/" "ma_3" df eq_refl E)
    as [objs [d [zf [name [bytes H]]]]].
  exists df, objs, d, zf, name, bytes. split; [reflexivity | exact H].
Defined.

(** When the Sheet Loader returns, it has opened every selected archive and
    parsed every member with the worksheet tag in its name: an archive that
    does not open, or a member that does not parse, ends the load even when
    a later member would have replaced its table. *)
Theorem sheet_loader_reads_every_match
    (read_csv : CsvOptions -> string -> result (Frame string))
    (fs : FileSystem) (dir_to_query worksheet : string)
    (df : Frame string) (d : string) :
  load_sheet read_csv fs dir_to_query worksheet = Ok df ->
  selected fs dir_to_query worksheet d ->
  exists zf,
    Zip.open_archive fs (OS.path_join dir_to_query d) = Ok zf /\
    forall name,
      In name (Zip.namelist zf) -> PyStr.contains worksheet name = true ->
      exists bytes t,
        Zip.open_member zf name = Ok bytes /\ read_csv tab_cp1252 bytes = Ok t.
Proof.
  unfold load_sheet. intros H [objs [Hobjs Hd]].
  apply bind_ok in H. destruct H as [s [Hloop _]].
  destruct (for_each_ran _ _ _ _ objs Hloop Hobjs) as [u [u' Hinner]].
  destruct (for_each_ran _ _ _ _ d Hinner Hd) as [v [v' Harch]].
  unfold sheet_archive in Harch.
  apply bind_ok in Harch. destruct Harch as [zf [Hzf Hmembers]].
  exists zf. split; [exact Hzf |].
  intros name Hname Hws.
  destruct (for_each_ran _ _ _ _ name Hmembers Hname) as [w [w' Hm]].
  unfold sheet_member in Hm. rewrite Hws in Hm.
  apply bind_ok in Hm. destruct Hm as [bytes [Hb Hm]].
  apply bind_ok in Hm. destruct Hm as [t [Ht _]].
  exists bytes, t. auto.
Qed.

Lemma fs2020_selected : selected Fixture.fs2020 "data/2020/" "ma_5" "bpt_ma_5.zip".
Proof.
  eexists. split; [left; reflexivity |]. vm_compute. left. reflexivity.
Defined.

Lemma sheet_loader_reads_every_match_witness :
  exists zf,
    Zip.open_archive Fixture.fs2020 (OS.path_join "data/2020/" "bpt_ma_5.zip") = Ok zf /\
    forall name,
      In name (Zip.namelist zf) -> PyStr.contains "ma_5" name = true ->
      exists bytes t,
        Zip.open_member zf name = Ok bytes /\
        Fixture.read_csv tab_cp1252 bytes = Ok t.
Proof.
  destruct (load_sheet Fixture.read_csv Fixture.fs2020 "data/2020/" "ma_5")
    as [df | e] eqn:E; [| vm_compute in E; discriminate].
  apply (sheet_loader_reads_every_match
           Fixture.read_csv Fixture.fs2020 "data/2020/" "ma_5" df "bpt_ma_5.zip" E).
  exact fs2020_selected.
Defined.

(** The last match wins: when the last archive selected in the last
    directory of the walk has members with the worksheet tag in their
    names, the table returned is the one of the last of these members. *)
Theorem last_matching_member_wins
    (read_csv : CsvOptions -> string -> result (Frame string))
    (fs : FileSystem) (dir_to_query worksheet : string)
    (walks : list (list string)) (objs ds : list string) (d : string)
    (zf : ZipFile) (names rest : list string) (name : string) (df : Frame string) :
  OS.walk fs dir_to_query = walks ++ [objs] ->
  dir_of_interest dir_to_query worksheet objs = ds ++ [d] ->
  Zip.open_archive fs (OS.path_join dir_to_query d) = Ok zf ->
  Zip.namelist zf = names ++ name :: rest ->
  PyStr.contains worksheet name = true ->
  (forall n, In n rest -> PyStr.contains worksheet n = false) ->
  load_sheet read_csv fs dir_to_query worksheet = Ok df ->
  exists bytes,
    Zip.open_member zf name = Ok bytes /\ read_csv tab_cp1252 bytes = Ok df.
Proof.
  intros Hwalk Hsel Hzf Hnames Hws Hrest Hload.
  unfold load_sheet in Hload. rewrite Hwalk, for_each_app in Hload.
  apply bind_ok in Hload. destruct Hload as [s [Hloop Hs]].
  apply bind_ok in Hloop. destruct Hloop as [s1 [_ Hlast]].
  simpl in Hlast. apply bind_ok in Hlast. destruct Hlast as [s2 [Hobjs E]].
  injection E as ->.
  rewrite Hsel, for_each_app in Hobjs.
  apply bind_ok in Hobjs. destruct Hobjs as [s3 [_ Harch]].
  simpl in Harch. apply bind_ok in Harch. destruct Harch as [s4 [Harch E]].
  injection E as ->.
  unfold sheet_archive in Harch. rewrite Hzf in Harch. simpl in Harch.
  rewrite Hnames, for_each_app in Harch.
  apply bind_ok in Harch. destruct Harch as [s5 [_ Hmembers]].
  simpl in Hmembers. apply bind_ok in Hmembers.
  destruct Hmembers as [s6 [Hname Htail]].
  unfold sheet_member in Hname. rewrite Hws in Hname.
  apply bind_ok in Hname. destruct Hname as [bytes [Hb Hname]].
  apply bind_ok in Hname. destruct Hname as [t [Ht E]]. injection E as <-.
  rewrite for_each_skip in Htail.
  - injection Htail as <-. simpl in Hs. injection Hs as <-.
    exists bytes. auto.
  - intros n Hn. unfold sheet_member. rewrite (Hrest n Hn). reflexivity.
Qed.

(** Of the two county members of [bpt_ma_5.zip] in [Fixture.fs2020] the
    Sheet Loader returns the second. *)
Lemma last_matching_member_wins_witness :
  exists bytes,
    Zip.open_member [("ma_5_a.txt", Fixture.county_a); ("ma_5_b.txt", Fixture.county_b)]
      "ma_5_b.txt" = Ok bytes /\
    Fixture.read_csv tab_cp1252 bytes
    = Ok (mkFrame [BID_ID; "B"]
            [[Str "H0001-001-0"; Str "b1"]; [Str "H0002-001-0"; Str "b2"]]).
Proof.
  apply (last_matching_member_wins
           Fixture.read_csv Fixture.fs2020 "data/2020/" "ma_5"
           [] (map node_name Fixture.year2020) [] "bpt_ma_5.zip"
           [("ma_5_a.txt", Fixture.county_a); ("ma_5_b.txt", Fixture.county_b)]
           ["ma_5_a.txt"] [] "ma_5_b.txt").
  - reflexivity.
  - reflexivity.
  - reflexivity.
  - reflexivity.
  - reflexivity.
  - intros n [].
  - reflexivity.
Defined.

(** ** A year directory that does not exist *)

(** On a path that does not exist the three loaders end differently: the
    Dictionary Loader with its assertion, the Sheet Loader with
    [UnboundLocalError] and the County Data Loader with the [ValueError] of
    [pd.concat] on no table, both after a walk that yields nothing; the
    constructor, when the path has a label, ends with the assertion. *)
Theorem missing_directory_errors
    (read_csv : CsvOptions -> string -> result (Frame string))
    (fs : FileSystem) (dir_to_query worksheet : string) :
  OS.path_exists fs dir_to_query = false ->
  load_data_dict read_csv fs dir_to_query = Err AssertionError /\
  load_sheet read_csv fs dir_to_query worksheet = Err UnboundLocalError /\
  load_county_data read_csv fs dir_to_query "ma_5" = Err ValueError /\
  (forall y, second_to_last (PyStr.split "/" dir_to_query) = Ok y ->
             BPT_init read_csv fs dir_to_query = Err AssertionError).
Proof.
  intros H.
  assert (OS.walk fs dir_to_query = []) as Hwalk.
  { unfold OS.path_exists in H. unfold OS.walk.
    destruct (OS.resolve fs dir_to_query); [discriminate | reflexivity]. }
  assert (load_data_dict read_csv fs dir_to_query = Err AssertionError) as Hdict.
  { unfold load_data_dict. rewrite H. reflexivity. }
  split; [exact Hdict |].
  split; [unfold load_sheet; rewrite Hwalk; reflexivity |].
  split; [unfold load_county_data, county_parts; rewrite Hwalk; reflexivity |].
  intros y Hy. unfold BPT_init. rewrite Hy. simpl. rewrite Hdict. reflexivity.
Qed.

Lemma missing_directory_errors_witness :
  load_data_dict Fixture.read_csv Fixture.fs2020 "data/2021/" = Err AssertionError /\
  load_sheet Fixture.read_csv Fixture.fs2020 "data/2021/" "ma_1" = Err UnboundLocalError /\
  load_county_data Fixture.read_csv Fixture.fs2020 "data/2021/" "ma_5" = Err ValueError /\
  (forall y, second_to_last (PyStr.split "/" "data/2021/") = Ok y ->
             BPT_init Fixture.read_csv Fixture.fs2020 "data/2021/" = Err AssertionError).
Proof.
  apply (missing_directory_errors Fixture.read_csv Fixture.fs2020 "data/2021/" "ma_1").
  reflexivity.
Defined.

(** ** The County Data Loader *)

Section CountyLoader.

Variable read_csv : CsvOptions -> string -> result (Frame string).
Variable fs : FileSystem.
Variable dir_to_query : string.

Local Abbreviation from_county :=
  (Forall (county_source read_csv fs dir_to_query)).

Lemma county_member_source (objs : list string) (obj : string) (zf : ZipFile) :
  In objs (OS.walk fs dir_to_query) -> In obj objs ->
  PyStr.contains "ma_5" obj = true ->
  Zip.open_archive fs (OS.path_join dir_to_query obj) = Ok zf ->
  forall f county county',
    In f (Zip.namelist zf) -> from_county county ->
    county_member read_csv dir_to_query zf county f = Ok county' ->
    from_county county'.
Proof.
  intros Hobjs Hobj Hma Hzf f county county' Hf Hc.
  assert (forall legacy : is_exception_year dir_to_query = true ->
                          PyStr.contains "ma_5" f = true,
            PyStr.endswith ".txt" f = true ->
            (b <- Zip.open_member zf f ;;
             tmp <- read_csv tab_cp1252 b ;; Ok (county ++ [tmp])) = Ok county' ->
            from_county county') as Hadd.
  { intros Hlegacy Htxt H.
    apply bind_ok in H. destruct H as [bytes [Hb H]].
    apply bind_ok in H. destruct H as [t [Ht H]]. injection H as <-.
    apply Forall_app. split; [exact Hc |].
    constructor; [| constructor].
    exists objs, obj, zf, f, bytes. auto 12. }
  unfold county_member.
  destruct (is_exception_year dir_to_query) eqn:Ey.
  - destruct (PyStr.contains "ma_5" f) eqn:Em;
      [| intros H; injection H as <-; exact Hc].
    destruct (PyStr.endswith ".txt" f) eqn:Et;
      [| intros H; injection H as <-; exact Hc].
    apply Hadd; auto.
  - destruct (PyStr.endswith ".txt" f) eqn:Et;
      [| intros H; injection H as <-; exact Hc].
    apply Hadd; [discriminate | reflexivity].
Qed.

(** Every part the County Data Loader collects is parsed from a [.txt]
    member of a listed file with [ma_5] in its name; in a legacy year the
    member has [ma_5] in its name too. *)
Theorem county_parts_come_from_benchmark_archives (parts : list (Frame string)) :
  county_parts read_csv fs dir_to_query "ma_5" = Ok parts ->
  Forall (county_source read_csv fs dir_to_query) parts.
Proof.
  unfold county_parts. intros H.
  refine (for_each_invariant from_county _ _ [] _ _ _ H).
  - intros objs u u' Hobjs Hu Hrun.
    refine (for_each_invariant from_county _ _ _ _ _ Hu Hrun).
    intros obj v v' Hobj Hv. unfold county_file.
    destruct (PyStr.contains "ma_5" obj) eqn:Ema;
      [| intros E; injection E as <-; exact Hv].
    intros E. apply bind_ok in E. destruct E as [zf [Hzf E]].
    refine (for_each_invariant from_county _ _ _ _
              (county_member_source objs obj zf Hobjs Hobj Ema Hzf) Hv E).
  - constructor.
Qed.

(** When every listed file with [ma_5] in its name opens and none holds a
    member the loader parses (none matches at all, in particular), the list
    of parts stays empty and the loader ends with the [ValueError] of
    [pd.concat]. *)
Theorem no_county_part_is_a_value_error :
  (forall objs obj,
     In objs (OS.walk fs dir_to_query) -> In obj objs ->
     PyStr.contains "ma_5" obj = true ->
     exists zf,
       Zip.open_archive fs (OS.path_join dir_to_query obj) = Ok zf /\
       forall f, In f (Zip.namelist zf) ->
         PyStr.endswith ".txt" f = false \/
         (is_exception_year dir_to_query = true /\ PyStr.contains "ma_5" f = false)) ->
  load_county_data read_csv fs dir_to_query "ma_5" = Err ValueError.
Proof.
  intros Hnone. unfold load_county_data, county_parts.
  rewrite for_each_skip; [reflexivity |].
  intros objs Hobjs. apply for_each_skip. intros obj Hobj.
  unfold county_file.
  destruct (PyStr.contains "ma_5" obj) eqn:Ema; [| reflexivity].
  destruct (Hnone objs obj Hobjs Hobj Ema) as [zf [Hzf Hmembers]].
  rewrite Hzf. simpl. apply for_each_skip. intros f Hf.
  unfold county_member.
  destruct (Hmembers f Hf) as [Htxt | [Hlegacy Hm]].
  - rewrite Htxt. destruct (is_exception_year dir_to_query); [| reflexivity].
    destruct (PyStr.contains "ma_5" f); reflexivity.
  - rewrite Hlegacy, Hm. reflexivity.
Qed.

End CountyLoader.

Lemma county_parts_come_from_benchmark_archives_witness :
  exists parts,
    county_parts Fixture.read_csv Fixture.fs_county "data/2020/" "ma_5" = Ok parts /\
    length parts = 3 /\
    Forall (county_source Fixture.read_csv Fixture.fs_county "data/2020/") parts.
Proof.
  destruct (county_parts Fixture.read_csv Fixture.fs_county "data/2020/" "ma_5")
    as [parts | e] eqn:E; [| vm_compute in E; discriminate].
  exists parts. split; [reflexivity |]. split.
  - vm_compute in E. injection E as <-. reflexivity.
  - apply (county_parts_come_from_benchmark_archives
             Fixture.read_csv Fixture.fs_county "data/2020/" parts E).
Defined.

(** The benchmark archive of [Fixture.fs_county_legacy] opens and none of
    its two members is parsed. *)
Lemma no_county_part_is_a_value_error_witness :
  load_county_data Fixture.read_csv Fixture.fs_county_legacy "data/2015/" "ma_5"
  = Err ValueError.
Proof.
  apply (no_county_part_is_a_value_error
           Fixture.read_csv Fixture.fs_county_legacy "data/2015/").
  intros objs obj Hobjs Hobj Hma.
  vm_compute in Hobjs. destruct Hobjs as [<- | []].
  destruct Hobj as [<- | []].
  eexists. split; [reflexivity |].
  intros f [<- | [<- | []]].
  - right. split; reflexivity.
  - left. reflexivity.
Defined.

(** ** The shape of the concatenated table *)

Lemma padded_row_length (i : nat) (f : Frame string) :
  rectangular f -> length (Pd.padded_row i f) = ncols f.
Proof.
  intros H. unfold Pd.padded_row.
  destruct (nth_in_or_default i (rows f) (repeat NA (ncols f))) as [Hin | ->].
  - unfold rectangular in H. rewrite Forall_forall in H. apply H. exact Hin.
  - apply repeat_length.
Qed.

Lemma padded_rows_length (i : nat) (parts : list (Frame string)) :
  Forall rectangular parts ->
  length (flat_map (Pd.padded_row i) parts) = list_sum (map ncols parts).
Proof.
  induction 1 as [| f parts Hf _ IH]; simpl; [reflexivity |].
  rewrite length_app, IH, (padded_row_length i f Hf). reflexivity.
Qed.

Lemma map_nth_seq {A : Type} (l : list A) (d : A) :
  map (fun i => nth i l d) (seq 0 (length l)) = l.
Proof.
  apply (nth_ext _ _ d d).
  - rewrite length_map, length_seq. reflexivity.
  - intros n Hn. rewrite length_map, length_seq in Hn.
    rewrite (nth_indep _ d (nth 0 l d)) by (rewrite length_map, length_seq; exact Hn).
    rewrite (map_nth (fun i => nth i l d) (seq 0 (length l)) 0 n).
    rewrite seq_nth by exact Hn. reflexivity.
Qed.

Lemma concat_columns_ok (parts : list (Frame string)) :
  parts <> [] ->
  Pd.concat_columns parts
  = Ok (mkFrame (flat_map columns parts)
          (map (fun i => flat_map (Pd.padded_row i) parts)
             (seq 0 (list_max (map nrows parts))))).
Proof.
  destruct parts; [contradiction | reflexivity].
Qed.

(** Cell by cell, for parts that have one cell per column in every row
    (no data line with more fields than the header, so that each part has
    the default row index [0, 1, ...] and [pd.concat(axis=1)] pairs the
    rows by position): in row [i] of the table, the columns of a part hold
    the part's row [i] when the part has one, and missing values when the
    part is shorter than the longest. *)
Theorem county_table_cells
    (read_csv : CsvOptions -> string -> result (Frame string))
    (fs : FileSystem) (dir_to_query : string)
    (before after : list (Frame string)) (p df : Frame string) (i j : nat) :
  county_parts read_csv fs dir_to_query "ma_5" = Ok (before ++ p :: after) ->
  load_county_data read_csv fs dir_to_query "ma_5" = Ok df ->
  Forall rectangular before -> rectangular p -> Forall rectangular after ->
  i < nrows df -> j < ncols p ->
  Pd.cell (list_sum (map ncols before) + j) (nth i (rows df) [])
  = if Nat.ltb i (nrows p) then Pd.cell j (nth i (rows p) []) else NA.
Proof.
  intros Hparts Hload Hbefore Hp _ Hi Hj.
  unfold load_county_data in Hload. rewrite Hparts in Hload. simpl in Hload.
  rewrite concat_columns_ok in Hload by (destruct before; discriminate).
  injection Hload as <-. unfold nrows in Hi. cbn [rows] in Hi |- *.
  rewrite length_map, length_seq in Hi.
  rewrite (nth_indep _ [] (flat_map (Pd.padded_row 0) (before ++ p :: after)))
    by (rewrite length_map, length_seq; exact Hi).
  rewrite (map_nth (fun i => flat_map (Pd.padded_row i) (before ++ p :: after))
             (seq 0 _) 0 i).
  rewrite seq_nth by exact Hi. simpl.
  rewrite flat_map_app. cbn [flat_map]. unfold Pd.cell.
  rewrite app_nth2; rewrite (padded_rows_length i before Hbefore); [| lia].
  replace (list_sum (map ncols before) + j - list_sum (map ncols before)) with j by lia.
  rewrite app_nth1 by (rewrite (padded_row_length i p Hp); exact Hj).
  unfold Pd.padded_row. unfold nrows.
  destruct (Nat.ltb_spec i (length (rows p))) as [Hlt | Hge].
  - f_equal. apply nth_indep. exact Hlt.
  - rewrite (nth_overflow (rows p)) by exact Hge. apply nth_repeat.
Qed.

(** The County Data Loader on one collected part returns that part. *)
Theorem single_county_part_is_returned
    (read_csv : CsvOptions -> string -> result (Frame string))
    (fs : FileSystem) (dir_to_query : string) (p : Frame string) :
  county_parts read_csv fs dir_to_query "ma_5" = Ok [p] ->
  load_county_data read_csv fs dir_to_query "ma_5" = Ok p.
Proof.
  intros Hparts. unfold load_county_data. rewrite Hparts. simpl.
  destruct p as [cols rws]. unfold nrows. cbn [rows columns].
  rewrite app_nil_r, Nat.max_0_r. f_equal. f_equal.
  rewrite <- (map_nth_seq rws (repeat NA (ncols (mkFrame cols rws)))) at 2.
  apply map_ext. intros i. unfold Pd.padded_row. cbn [rows].
  apply app_nil_r.
Qed.

Lemma single_county_part_is_returned_witness :
  load_county_data Fixture.read_csv Fixture.fs_county_one "data/2020/" "ma_5"
  = Ok (mkFrame ["E"] [[Str "E1"]; [Str "E2"]]).
Proof.
  apply (single_county_part_is_returned
           Fixture.read_csv Fixture.fs_county_one "data/2020/").
  reflexivity.
Defined.

(** The shorter part of [Fixture.fs_county_ragged] has no second row: the
    cell under its column is missing. *)
Lemma county_table_cells_witness :
  Pd.cell 1 (nth 1 [[Str "L1"; Str "S1"]; [Str "L2"; NA]] []) = NA.
Proof.
  apply (county_table_cells
           Fixture.read_csv Fixture.fs_county_ragged "data/2020/"
           [mkFrame ["L"] [[Str "L1"]; [Str "L2"]]] []
           (mkFrame ["S"] [[Str "S1"]])
           (mkFrame ["L"; "S"] [[Str "L1"; Str "S1"]; [Str "L2"; NA]])
           1 0).
  - reflexivity.
  - reflexivity.
  - repeat constructor.
  - repeat constructor.
  - constructor.
  - unfold nrows. simpl. lia.
  - unfold ncols. simpl. lia.
Defined.

(** ** The Field Renamer, further *)

Lemma dict_get_key (d : list (Scalar * Scalar)) (l : string) (v : Scalar) :
  Pd.dict_get d l = Some v -> In (Str l) (map fst d).
Proof.
  revert v. induction d as [| [k w] d IH]; simpl; intros v; [discriminate |].
  destruct (Pd.dict_get d l) as [v' |].
  - intros _. right. apply (IH v' eq_refl).
  - destruct k as [| s | n]; try discriminate.
    destruct (String.eqb_spec s l) as [-> | _]; [| discriminate].
    intros _. left. reflexivity.
Qed.

(** The keys of the mapping are cells of the dictionary, or the label
    [NAME] itself when several columns bear it. *)
Lemma getitem_keys (f : Frame string) (o : PdObject) (keys : list Scalar) (l : string) :
  Pd.getitem f "NAME" = Ok o -> Pd.iter o = Ok keys -> In (Str l) keys ->
  l = "NAME" \/ exists row, In row (rows f) /\ In (Str l) row.
Proof.
  unfold Pd.getitem.
  destruct (Pd.positions "NAME" (columns f) 0) as [| i [| j ps]]; [discriminate | |].
  - intros E. injection E as <-. simpl. intros E. injection E as <-.
    intros Hin. apply in_map_iff in Hin. destruct Hin as [row [Hcell Hrow]].
    right. exists row. split; [exact Hrow |].
    unfold Pd.cell in Hcell.
    destruct (nth_in_or_default i row NA) as [H | H]; congruence.
  - intros E. injection E as <-. simpl. intros E. injection E as <-.
    rewrite select_mask. intros Hin.
    apply in_map_iff in Hin. destruct Hin as [s [E Hs]]. injection E as ->.
    apply filter_In in Hs. destruct Hs as [_ Hs].
    left. symmetry. apply String.eqb_eq. exact Hs.
Qed.

(** Whatever the dictionary, the Field Renamer returns the rows of the
    worksheet as they are and as many columns, and leaves alone every
    column whose name is no cell of the dictionary (nor [NAME]). *)
Theorem renamer_only_touches_dictionary_codes
    (data_dict df : Frame string) (r : Frame Scalar) :
  replace_field_to_name data_dict df = Ok r ->
  rows r = rows df /\
  ncols r = ncols df /\
  forall j l,
    nth_error (columns df) j = Some l ->
    l <> "NAME" ->
    (forall row, In row (rows data_dict) -> ~ In (Str l) row) ->
    nth_error (columns r) j = Some (Str l).
Proof.
  unfold replace_field_to_name, field_mapping. intros H.
  apply bind_ok in H. destruct H as [d [Hd H]]. injection H as <-.
  apply bind_ok in Hd. destruct Hd as [names [Hnames Hd]].
  apply bind_ok in Hd. destruct Hd as [keys [Hkeys Hd]].
  apply bind_ok in Hd. destruct Hd as [values [_ Hd]]. injection Hd as <-.
  split; [reflexivity |].
  split; [unfold ncols, Pd.rename; simpl; apply length_map |].
  intros j l Hj Hname Hcells.
  unfold Pd.rename. cbn [columns]. rewrite nth_error_map, Hj. simpl.
  unfold Pd.rename_label.
  destruct (Pd.dict_get (combine keys values) l) as [v |] eqn:E; [| reflexivity].
  exfalso. apply dict_get_key in E.
  apply in_map_iff in E. destruct E as [[k w] [Ek Hin]]. simpl in Ek. subst k.
  apply in_combine_l in Hin.
  destruct (getitem_keys data_dict names keys l Hnames Hkeys Hin)
    as [E | [row [Hrow Hcell]]]; [contradiction |].
  apply (Hcells row Hrow Hcell).
Qed.

Lemma renamer_only_touches_dictionary_codes_witness :
  nth_error [Str "Plan Name"; Str "Region"; Str "X"] 2 = Some (Str "X").
Proof.
  apply (renamer_only_touches_dictionary_codes
           Fixture.dict_two_rows Fixture.worksheet
           (mkFrame [Str "Plan Name"; Str "Region"; Str "X"] (rows Fixture.worksheet))).
  - reflexivity.
  - reflexivity.
  - discriminate.
  - intros row [<- | [<- | []]] [H | [H | []]]; discriminate.
Defined.

(** A dictionary without a [NAME] column ends the Field Renamer with
    [KeyError], whatever its other columns and the worksheet. *)
Theorem dictionary_without_name_column (data_dict df : Frame string) :
  ~ In "NAME" (columns data_dict) ->
  replace_field_to_name data_dict df = Err KeyError.
Proof.
  intros H. apply positions_in with (i := 0) in H.
  unfold replace_field_to_name, field_mapping, Pd.getitem. rewrite H. reflexivity.
Qed.

Lemma dictionary_without_name_column_witness :
  replace_field_to_name (mkFrame ["CODE"; "FIELD_TITLE"] [[Str "F1"; Str "Plan Name"]])
    Fixture.worksheet = Err KeyError.
Proof.
  apply dictionary_without_name_column.
  simpl. intros [H | [H | []]]; discriminate.
Defined.

Lemma select_none {A B : Type} (p : A -> bool) (cols : list A) (xs : list B) :
  filter p cols = [] -> Pd.select (map p cols) xs = [].
Proof.
  revert xs. induction cols as [| c cols IH]; intros xs; simpl; [reflexivity |].
  destruct (p c); [discriminate |].
  intros H. destruct xs as [| x xs]; [reflexivity | apply IH; exact H].
Qed.

(** A dictionary with a [NAME] column and no column matching [FIELD]
    renames nothing: the mapping is empty and the worksheet comes back
    with its own labels. *)
Theorem dictionary_without_field_column (data_dict df : Frame string) :
  In "NAME" (columns data_dict) ->
  filter (PyStr.contains "FIELD") (columns data_dict) = [] ->
  replace_field_to_name data_dict df
  = Ok (mkFrame (map Str (columns df)) (rows df)).
Proof.
  intros Hname Hfield. unfold replace_field_to_name, field_mapping.
  destruct (Pd.getitem data_dict "NAME") as [names | e] eqn:En.
  2:{ exfalso. unfold Pd.getitem in En.
      destruct (Pd.positions "NAME" (columns data_dict) 0) as [| i [| j l]] eqn:Ep;
        try discriminate.
      apply (proj1 (positions_in "NAME" (columns data_dict) 0) Ep). exact Hname. }
  destruct (iter_getitem _ _ _ En) as [keys Hk].
  simpl. rewrite Hk. simpl.
  assert (Pd.iter (Pd.squeeze (Pd.iloc_columns data_dict
                                 (Pd.str_contains "FIELD" (columns data_dict))))
          = Ok []) as ->.
  { unfold Pd.squeeze, Pd.iloc_columns, Pd.str_contains. cbn [rows columns].
    rewrite select_mask, Hfield.
    destruct (rows data_dict) as [| r [| r' rs]]; cbn [map]; try reflexivity.
    rewrite (select_none _ _ r Hfield). reflexivity. }
  simpl. rewrite combine_nil. reflexivity.
Qed.

Lemma dictionary_without_field_column_witness :
  replace_field_to_name (mkFrame ["NAME"; "TITLE"] [[Str "F1"; Str "Plan Name"]])
    Fixture.worksheet
  = Ok (mkFrame [Str "F1"; Str "F2"; Str "X"] (rows Fixture.worksheet)).
Proof.
  apply (dictionary_without_field_column
           (mkFrame ["NAME"; "TITLE"] [[Str "F1"; Str "Plan Name"]]) Fixture.worksheet).
  - simpl. left. reflexivity.
  - reflexivity.
Defined.

(** With one column matching [FIELD] and no row, or two rows and more, the
    mapping pairs each code with the label of its row. *)
Lemma renamer_mapping (field : string) (entries : list (string * Scalar))
    (df : Frame string) :
  PyStr.contains "FIELD" field = true ->
  length entries <> 1 ->
  replace_field_to_name (dictionary field entries) df
  = Ok (Pd.rename df (coded entries)).
Proof.
  intros Hfield Hlen.
  assert (String.eqb field "NAME" = false) as Hname.
  { destruct (String.eqb_spec field "NAME") as [-> | _]; [discriminate | reflexivity]. }
  unfold replace_field_to_name, field_mapping, Pd.getitem, dictionary.
  cbn [columns rows Pd.positions Pd.str_contains map].
  rewrite Hname, String.eqb_refl.
  change (PyStr.contains "FIELD" "NAME") with false. rewrite Hfield.
  unfold Pd.squeeze, Pd.iloc_columns. cbn [columns rows Pd.select bind].
  rewrite !map_map.
  destruct entries as [| e1 [| e2 es]]; [reflexivity | contradiction |].
  cbn [map bind Pd.iter]. unfold coded, Pd.cell. cbn [combine map nth].
  do 4 f_equal. clear.
  induction es as [| e es IH]; simpl; congruence.
Qed.

Lemma dict_get_last (entries : list (string * Scalar)) (code : string) (label : Scalar) :
  Pd.dict_get (coded (entries ++ [(code, label)])) code = Some label.
Proof.
  induction entries as [| [c v] es IH]; simpl.
  - rewrite String.eqb_refl. reflexivity.
  - rewrite IH. reflexivity.
Qed.

(** A code the dictionary lists more than once takes the label of its
    last row. *)
Theorem repeated_code_takes_its_last_label
    (field : string) (entries : list (string * Scalar))
    (code : string) (label : Scalar) (df : Frame string) :
  PyStr.contains "FIELD" field = true ->
  entries <> [] ->
  exists r,
    replace_field_to_name (dictionary field (entries ++ [(code, label)])) df = Ok r /\
    forall j, nth_error (columns df) j = Some code ->
              nth_error (columns r) j = Some label.
Proof.
  intros Hfield Hne.
  rewrite (renamer_mapping field _ df Hfield).
  - eexists. split; [reflexivity |].
    intros j Hj. unfold Pd.rename. cbn [columns].
    rewrite nth_error_map, Hj. simpl. unfold Pd.rename_label.
    rewrite dict_get_last. reflexivity.
  - rewrite length_app. simpl. destruct entries; [contradiction | simpl; lia].
Qed.

Lemma repeated_code_takes_its_last_label_witness :
  exists r,
    replace_field_to_name
      (dictionary "FIELD_TITLE" ([("F1", Str "Plan"); ("F2", Str "Region")]
                                 ++ [("F1", Str "Plan Name")]))
      Fixture.worksheet = Ok r /\
    forall j, nth_error (columns Fixture.worksheet) j = Some "F1" ->
              nth_error (columns r) j = Some (Str "Plan Name").
Proof.
  apply (repeated_code_takes_its_last_label
           "FIELD_TITLE" [("F1", Str "Plan"); ("F2", Str "Region")]
           "F1" (Str "Plan Name") Fixture.worksheet).
  - reflexivity.
  - discriminate.
Defined.

(** A dictionary of one row and one column matching [FIELD]: the one label
    is squeezed to a scalar. A label that is a string is iterated by
    character, so the code is paired with the first character (with
    nothing, when the string is empty); a label that is missing or a number
    ends the Field Renamer with [TypeError]. *)
Theorem one_row_dictionary
    (field code : string) (label : Scalar) (df : Frame string) :
  PyStr.contains "FIELD" field = true ->
  match label with
  | Str (String c _) =>
      replace_field_to_name (dictionary field [(code, label)]) df
      = Ok (Pd.rename df [(Str code, Str (String c ""))])
  | Str EmptyString =>
      replace_field_to_name (dictionary field [(code, label)]) df
      = Ok (Pd.rename df [])
  | _ =>
      replace_field_to_name (dictionary field [(code, label)]) df = Err TypeError
  end.
Proof.
  intros Hfield.
  assert (String.eqb field "NAME" = false) as Hname.
  { destruct (String.eqb_spec field "NAME") as [-> | _]; [discriminate | reflexivity]. }
  unfold replace_field_to_name, field_mapping, Pd.getitem, dictionary.
  cbn [columns rows Pd.positions Pd.str_contains map].
  rewrite Hname, String.eqb_refl.
  change (PyStr.contains "FIELD" "NAME") with false. rewrite Hfield.
  destruct label as [| [| c s] | n]; reflexivity.
Qed.

Lemma one_row_dictionary_witness :
  replace_field_to_name (dictionary "FIELD_TITLE" [("F1", Str "Plan Name")])
    Fixture.worksheet
  = Ok (Pd.rename Fixture.worksheet [(Str "F1", Str "P")]).
Proof.
  apply (one_row_dictionary "FIELD_TITLE" "F1" (Str "Plan Name") Fixture.worksheet).
  reflexivity.
Defined.

(** ** The Data Loader and the Bundle *)

Lemma filter_twice {A : Type} (p : A -> bool) (l : list A) :
  filter p (filter p l) = filter p l.
Proof.
  induction l as [| x l IH]; simpl; [reflexivity |].
  destruct (p x) eqn:E; simpl; [rewrite E, IH; reflexivity | exact IH].
Qed.

(** What [dropna] returns: the same columns, some of the rows in their
    order, the bid column present and filled in every row; dropping again
    changes nothing. *)
Lemma dropna_keyed (f g : Frame Scalar) :
  Pd.dropna f BID_ID = Ok g ->
  columns g = columns f /\
  incl (rows g) (rows f) /\
  nrows g <= nrows f /\
  keyed g /\
  Pd.dropna g BID_ID = Ok g.
Proof.
  unfold Pd.dropna.
  destruct (Pd.label_positions BID_ID (columns f) 0) as [| p ps] eqn:E;
    [discriminate |].
  intros H. injection H as <-. cbn [columns rows].
  split; [reflexivity |].
  split; [intros row Hrow; apply filter_In in Hrow; tauto |].
  split; [unfold nrows; cbn [rows]; apply filter_length_le |].
  split.
  - split.
    + assert (In p (Pd.label_positions BID_ID (columns f) 0)) as Hp
        by (rewrite E; left; reflexivity).
      apply label_positions_spec in Hp. destruct Hp as [j [_ Hj]].
      apply nth_error_In in Hj. exact Hj.
    + cbn [columns rows]. intros row i Hrow Hi Hna.
      apply filter_In in Hrow. destruct Hrow as [_ Hkeep].
      change (forallb (fun i => notna (Pd.cell i row)) (p :: ps) = true) in Hkeep.
      rewrite forallb_forall in Hkeep.
      assert (In i (Pd.label_positions BID_ID (columns f) 0)) as Hp
        by (apply label_positions_spec; exists i; auto).
      rewrite E in Hp. specialize (Hkeep i Hp). rewrite Hna in Hkeep. discriminate.
  - rewrite E, filter_twice. reflexivity.
Qed.

(** The Data Loader returns the columns of the worksheet one for one and
    some of its rows, unchanged and in order; the bid column is there and
    filled in every row, so that dropping the rows without a bid once more
    changes nothing. *)
Theorem data_loader_output
    (read_csv : CsvOptions -> string -> result (Frame string))
    (fs : FileSystem) (dirpath worksheet : string)
    (data_dict : Frame string) (out : Frame Scalar) :
  data_loader read_csv fs dirpath worksheet data_dict = Ok out ->
  exists df,
    load_sheet read_csv fs dirpath worksheet = Ok df /\
    ncols out = ncols df /\
    incl (rows out) (rows df) /\
    nrows out <= nrows df /\
    keyed out /\
    Pd.dropna out BID_ID = Ok out.
Proof.
  unfold data_loader. intros H.
  apply bind_ok in H. destruct H as [df [Hdf H]].
  apply bind_ok in H. destruct H as [renamed [Hr H]].
  apply dropna_keyed in H. destruct H as [Hc [Hrows [Hn [Hk Hdrop]]]].
  unfold replace_field_to_name in Hr.
  apply bind_ok in Hr. destruct Hr as [d [_ Hr]]. injection Hr as <-.
  exists df. split; [exact Hdf |].
  split; [unfold ncols; rewrite Hc; apply length_map |].
  auto.
Qed.

Lemma data_loader_output_witness :
  exists out df,
    data_loader Fixture.read_csv Fixture.fs2020 "data/2020/" "ma_1" Fixture.dict_two_rows
      = Ok out /\
    load_sheet Fixture.read_csv Fixture.fs2020 "data/2020/" "ma_1" = Ok df /\
    nrows out <= nrows df /\ keyed out.
Proof.
  destruct (data_loader Fixture.read_csv Fixture.fs2020 "data/2020/" "ma_1"
              Fixture.dict_two_rows) as [out | e] eqn:E;
    [| vm_compute in E; discriminate].
  destruct (data_loader_output Fixture.read_csv Fixture.fs2020 "data/2020/" "ma_1"
              Fixture.dict_two_rows out E) as [df [H1 [_ [_ [H2 [H3 _]]]]]].
  exists out, df. auto.
Defined.

(** Every worksheet of a Bundle has the bid column and no row without a
    bid, the benchmark worksheet included. *)
Theorem bundle_worksheets_are_keyed
    (read_csv : CsvOptions -> string -> result (Frame string))
    (fs : FileSystem) (yeardir : string) (b : BPT) :
  BPT_init read_csv fs yeardir = Ok b ->
  keyed (ma_1 b) /\ keyed (ma_2 b) /\ keyed (ma_3 b) /\ keyed (ma_4 b) /\
  keyed (ma_5 b) /\ keyed (ma_6 b) /\ keyed (ma_7 b).
Proof.
  intros H. apply BPT_init_ok in H.
  destruct H as [_ [_ [H1 [H2 [H3 [H4 [H5 [H6 H7]]]]]]]].
  assert (forall w t, data_loader read_csv fs yeardir w (data_dict b) = Ok t -> keyed t)
    as Hkeyed.
  { intros w t Ht. unfold data_loader in Ht.
    apply bind_ok in Ht. destruct Ht as [df [_ Ht]].
    apply bind_ok in Ht. destruct Ht as [renamed [_ Ht]].
    apply dropna_keyed in Ht. tauto. }
  repeat split; eapply Hkeyed; eassumption.
Qed.

Lemma bundle_worksheets_are_keyed_witness :
  exists b,
    BPT_init Fixture.read_csv Fixture.fs2020 "data/2020/" = Ok b /\
    keyed (ma_1 b) /\ keyed (ma_5 b).
Proof.
  destruct (BPT_init Fixture.read_csv Fixture.fs2020 "data/2020/") as [b | e] eqn:E;
    [| vm_compute in E; discriminate].
  destruct (bundle_worksheets_are_keyed
              Fixture.read_csv Fixture.fs2020 "data/2020/" b E)
    as [H1 [_ [_ [_ [H5 _]]]]].
  exists b. auto.
Defined.

(** ** A worksheet archive among other files *)

Lemma find_entry_middle (file : string) (data : FileData) (before after : list Node) :
  (forall n, In n before -> node_name n <> file) ->
  OS.find_entry file (before ++ File file data :: after) = Some (File file data).
Proof.
  induction before as [| n before IH]; simpl; intros H.
  - rewrite String.eqb_refl. reflexivity.
  - destruct (String.eqb_spec (node_name n) file) as [E | _].
    + exfalso. apply (H n); auto.
    + apply IH. intros m Hm. apply H. right. exact Hm.
Qed.

Lemma open_member_middle (member bytes : string) (mbefore mafter : list (string * string)) :
  (forall m, In m mafter -> fst m <> member) ->
  Zip.open_member (mbefore ++ (member, bytes) :: mafter) member = Ok bytes.
Proof.
  intros Hafter.
  assert (Zip.open_member mafter member = Err KeyError) as Habsent.
  { induction mafter as [| [n b] l IH]; simpl; [reflexivity |].
    rewrite IH by (intros m Hin; apply Hafter; right; exact Hin).
    destruct (String.eqb_spec n member) as [E | _]; [| reflexivity].
    exfalso. apply (Hafter (n, b)); [left; reflexivity | exact E]. }
  induction mbefore as [| [n b] l IH]; simpl.
  - rewrite Habsent, String.eqb_refl. reflexivity.
  - rewrite IH. reflexivity.
Qed.

Lemma filter_middle {A : Type} (p : A -> bool) (before after : list A) (x : A) :
  (forall y, In y before \/ In y after -> p y = false) ->
  p x = true ->
  filter p (before ++ x :: after) = [x].
Proof.
  intros Hothers Hx.
  assert (forall l, (forall y, In y l -> p y = false) -> filter p l = []) as Hnone.
  { induction l as [| y l IH]; simpl; intros H; [reflexivity |].
    rewrite (H y (or_introl eq_refl)). apply IH.
    intros z Hz. apply H. right. exact Hz. }
  rewrite filter_app. simpl. rewrite Hx.
  rewrite (Hnone before), (Hnone after); auto.
Qed.

(** A year directory without subdirectories in which the selection rule
    keeps one file, an archive with one member named with the worksheet
    tag, which the reader can parse: the Sheet Loader returns the table of
    that member, whatever else the directory and the archive hold. *)
Theorem single_worksheet_archive_is_loaded
    (read_csv : CsvOptions -> string -> result (Frame string))
    (fs : FileSystem) (dir_to_query worksheet nm file member bytes : string)
    (before after : list Node) (mbefore mafter : list (string * string))
    (t : Frame string) :
  OS.resolve fs dir_to_query
    = Some (Dir nm (before ++
                    File file (ZipData (mbefore ++ (member, bytes) :: mafter)) :: after)) ->
  (forall n, In n (before ++ after) ->
     is_dir n = false /\
     dir_of_interest dir_to_query worksheet [node_name n] = []) ->
  dir_of_interest dir_to_query worksheet [file] = [file] ->
  file_name_ok file ->
  (forall m, In m (mbefore ++ mafter) -> PyStr.contains worksheet (fst m) = false) ->
  PyStr.contains worksheet member = true ->
  read_csv tab_cp1252 bytes = Ok t ->
  load_sheet read_csv fs dir_to_query worksheet = Ok t.
Proof.
  intros Hdir Hothers Hfile Hname Hm Hws Hparse.
  set (zf := mbefore ++ (member, bytes) :: mafter) in *.
  set (marker := if is_exception_year dir_to_query then "_ma" else worksheet).
  assert (forall objs,
            dir_of_interest dir_to_query worksheet objs
            = filter (PyStr.contains marker) objs) as Hsel.
  { intros objs. unfold dir_of_interest, marker.
    destruct (is_exception_year dir_to_query); reflexivity. }
  assert (PyStr.contains marker file = true) as Hkeep.
  { rewrite Hsel in Hfile. simpl in Hfile.
    destruct (PyStr.contains marker file); [reflexivity | discriminate]. }
  assert (forall n, In n before \/ In n after ->
            is_dir n = false /\ PyStr.contains marker (node_name n) = false) as Hrest.
  { intros n Hn. destruct (Hothers n (in_or_app _ _ _ Hn)) as [Hd Hout].
    split; [exact Hd |]. rewrite Hsel in Hout. simpl in Hout.
    destruct (PyStr.contains marker (node_name n)); [discriminate | reflexivity]. }
  assert (Zip.open_archive fs (OS.path_join dir_to_query file) = Ok zf) as Hopen.
  { unfold Zip.open_archive.
    rewrite (resolve_join fs dir_to_query nm file _ Hdir Hname).
    rewrite find_entry_middle; [reflexivity |].
    intros n Hn E. destruct (Hrest n (or_introl Hn)) as [_ Hout].
    rewrite E, Hkeep in Hout. discriminate. }
  assert (Zip.open_member zf member = Ok bytes) as Hbytes.
  { apply open_member_middle. intros m Hin E.
    pose proof (Hm m (in_or_app _ _ _ (or_intror Hin))) as Hf.
    rewrite E in Hf. congruence. }
  unfold load_sheet, OS.walk. rewrite Hdir.
  rewrite walk_flat.
  2:{ intros n Hin. apply in_app_or in Hin.
      destruct Hin as [Hin | [<- | Hin]]; [| reflexivity |]; apply Hrest; auto. }
  cbn [for_each bind]. rewrite Hsel, map_app. cbn [map node_name].
  rewrite filter_middle.
  - cbn [for_each bind]. unfold sheet_archive. rewrite Hopen. cbn [bind].
    unfold zf, Zip.namelist. rewrite map_app, for_each_app.
    rewrite for_each_skip.
    + cbn [bind map for_each fst]. unfold sheet_member at 1.
      rewrite Hws. fold zf. rewrite Hbytes. cbn [bind]. rewrite Hparse. cbn [bind].
      rewrite for_each_skip; [reflexivity |].
      intros name Hin. apply in_map_iff in Hin. destruct Hin as [m [<- Hin]].
      unfold sheet_member.
      rewrite (Hm m) by (apply in_or_app; right; exact Hin). reflexivity.
    + intros name Hin. apply in_map_iff in Hin. destruct Hin as [m [<- Hin]].
      unfold sheet_member.
      rewrite (Hm m) by (apply in_or_app; left; exact Hin). reflexivity.
  - intros y [Hy | Hy]; apply in_map_iff in Hy; destruct Hy as [n [<- Hn]];
      apply Hrest; auto.
  - exact Hkeep.
Qed.

Lemma single_worksheet_archive_is_loaded_witness :
  load_sheet Fixture.read_csv Fixture.fs2014 "data/2014/" "ma_3"
  = Ok (mkFrame [BID_ID; "F1"; "F2"; "X"]
          [[Str "H0001-001-0"; Str "ma_3"; Str "north"; Str "1"];
           [NA; Str "ma_3"; Str "south"; Str "2"];
           [Str "H0002-001-0"; Str "ma_3"; NA; Str "3"]]).
Proof.
  apply (single_worksheet_archive_is_loaded
           Fixture.read_csv Fixture.fs2014 "data/2014/" "ma_3" "2014"
           "bpt_ma.zip" "ma_3.txt" (Fixture.sheet_txt "ma_3")
           [File "dictionary.zip" (ZipData [("dictionary.csv", Fixture.dictionary_csv)])]
           [] [("ma_1.txt", Fixture.sheet_txt "ma_1")] []).
  - reflexivity.
  - intros n [<- | []]. split; reflexivity.
  - reflexivity.
  - repeat split; discriminate.
  - intros m [<- | []]. reflexivity.
  - reflexivity.
  - reflexivity.
Defined.

(** ** The year label and the names of the directories *)







